(** * nftfi.js: the offers client and the Gnosis multisig owner

    A shallow embedding of [src/nftfi/offers.js] (class [Offers]) and of the
    class [MultisigGnosisOwner], with the fragment of the JavaScript run time
    that both rely on: plain data values, property reads, object spread,
    truthiness, strict equality against literals, [ToString], strict-mode
    assignment to an identifier that no scope declares, and [String.replace]
    with an end-anchored pattern. *)

From stdpp Require Import gmap strings list fin_maps pretty.

(** ** JavaScript values *)

Module JS.

(** Plain data, as the options, payloads and responses of the SDK are.
    A number is kept as the text [Number::toString] gives it (["42"],
    ["-1.5"], ["1e+21"], ["NaN"]): the two classes only ever test a number
    for truthiness or print it.  Functions, symbols, accessors and
    prototypes other than the built-in ones are outside the model. *)
#[local] Unset Elimination Schemes.
Inductive value : Type :=
  | VUndef
  | VNull
  | VBool (b : bool)
  | VNum (text : string)
  | VStr (s : string)
  | VArr (elems : list value)
  | VObj (props : gmap string value).
#[local] Set Elimination Schemes.

(** What a [throw] carries: the two built-in errors the run time raises in
    this code, or whatever a collaborator threw or rejected with. *)
Inductive error : Type :=
  | ReferenceError (name : string)
  | TypeError
  | Thrown (v : value).

(** The result of evaluating an expression or awaiting a promise. *)
Inductive outcome (A : Type) : Type :=
  | Ok (a : A)
  | Throw (e : error).
Arguments Ok {A} a.
Arguments Throw {A} e.

Definition obind {A B} (x : outcome A) (f : A -> outcome B) : outcome B :=
  match x with
  | Ok a => f a
  | Throw e => Throw e
  end.

#[export] Instance outcome_ret : MRet outcome := @Ok.
#[export] Instance outcome_bind : MBind outcome := fun A B f x => obind x f.

Definition is_throw {A} (x : outcome A) : bool :=
  match x with Ok _ => false | Throw _ => true end.

(** [ToBoolean]. *)
Definition truthy (v : value) : bool :=
  match v with
  | VUndef | VNull => false
  | VBool b => b
  | VNum t => negb (String.eqb t "0" || String.eqb t "NaN")
  | VStr s => negb (String.eqb s "")
  | VArr _ | VObj _ => true
  end.

Definition nullish (v : value) : bool :=
  match v with VUndef | VNull => true | _ => false end.

(** [v === 'lit'] and [v === false]. *)
Definition strict_eq_str (v : value) (lit : string) : bool :=
  match v with VStr s => String.eqb s lit | _ => false end.

Definition strict_eq_false (v : value) : bool :=
  match v with VBool false => true | _ => false end.

(** [a || b] with [b] a literal. *)
Definition or_else (a b : value) : value := if truthy a then a else b.

(** The own enumerable properties of an array or string: its indices. *)
Definition index_props (l : list value) : gmap string value :=
  list_to_map (imap (fun i v => (pretty i, v)) l).

Definition chars (s : string) : list value :=
  (fun c => VStr (String c EmptyString)) <$> String.list_ascii_of_string s.

Definition own_props (v : value) : gmap string value :=
  match v with
  | VObj m => m
  | VArr l => index_props l
  | VStr s => index_props (chars s)
  | _ => ∅
  end.

(** The value of property [k] of a value that is neither [undefined] nor
    [null]: an own property, the [length] of an array or string, and
    [undefined] otherwise.  Inherited methods are functions, which the model
    has no values for; none of the names the two classes read is one. *)
Definition prop (v : value) (k : string) : value :=
  match v with
  | VObj m => default VUndef (m !! k)
  | VArr l =>
      if String.eqb k "length" then VNum (pretty (length l))
      else default VUndef (index_props l !! k)
  | VStr s =>
      if String.eqb k "length" then VNum (pretty (String.length s))
      else default VUndef (index_props (chars s) !! k)
  | _ => VUndef
  end.

(** [v.k]: reading from [undefined] or [null] throws. *)
Definition get (v : value) (k : string) : outcome value :=
  if nullish v then Throw TypeError else Ok (prop v k).

(** [v?.k]. *)
Definition get_opt (v : value) (k : string) : value :=
  if nullish v then VUndef else prop v k.

(** [v.k1.k2...] and [v?.k1?.k2...]. *)
Fixpoint path (v : value) (ks : list string) : outcome value :=
  match ks with
  | [] => Ok v
  | k :: ks' => obind (get v k) (fun v' => path v' ks')
  end.

Fixpoint path_opt (v : value) (ks : list string) : value :=
  match ks with
  | [] => v
  | k :: ks' => path_opt (get_opt v k) ks'
  end.

(** [{...a, ...b}]: the properties of [a], then those of [b] over them.
    Spreading [undefined], [null], a boolean or a number adds nothing. *)
Definition spread2 (a b : value) : value :=
  VObj (own_props b ∪ own_props a).

(** [ToString], as a template literal applies it.  An object prints as
    ["[object Object]"] through [Object.prototype.toString]; an own
    [toString] property shadows that method and, being data, is not
    callable, so the conversion throws.  An array prints its elements joined
    by commas, [undefined] and [null] as the empty string. *)
Fixpoint to_string (v : value) : outcome string :=
  match v with
  | VUndef => Ok "undefined"
  | VNull => Ok "null"
  | VBool b => Ok (if b then "true" else "false")
  | VNum t => Ok t
  | VStr s => Ok s
  | VObj m =>
      match m !! "toString" with
      | Some _ => Throw TypeError
      | None => Ok "[object Object]"
      end
  | VArr l =>
      (fix join (l : list value) : outcome string :=
         match l with
         | [] => Ok ""
         | x :: rest =>
             obind (if nullish x then Ok "" else to_string x) (fun s =>
             match rest with
             | [] => Ok s
             | _ => obind (join rest) (fun r => Ok (s +:+ "," +:+ r))
             end)
         end) l
  end.

(** [s.replace(/pat$/, rep)] for a literal [pat] and a [rep] without [$]:
    the search runs from the left for the first position at which [pat]
    is followed by the end of the input. *)
Fixpoint replace_at_end (pat rep s : string) : string :=
  if String.eqb s pat then rep
  else match s with
       | EmptyString => EmptyString
       | String c s' => String c (replace_at_end pat rep s')
       end.

(** The method call [v.replace(/pat$/, rep)]: only a string has the
    method. *)
Definition replace_method (v : value) (pat rep : string) : outcome value :=
  match v with
  | VStr s => Ok (VStr (replace_at_end pat rep s))
  | _ => Throw TypeError
  end.

End JS.

Import JS.

(** ** src/nftfi/offers.js *)

Module Offers.

(** The calls the class makes on its injected collaborators, in order. *)
Inductive event : Type :=
  | AccountGetAddress
  | ApiGet (request : value)
  | ApiPost (request : value)
  | ConstructV2Offer (options : value).

(** What a method runs against: the bindings of the global environment
    (the only scope outside the module that an identifier can resolve in)
    and the log of collaborator calls made so far. *)
Record state : Type := State {
  globals : gmap string value;
  calls : list event
}.

(** An asynchronous method body: it threads the state and either yields a
    value (the promise fulfils) or throws (the promise rejects). *)
Definition M (A : Type) : Type := state -> outcome A * state.

Definition ret {A} (a : A) : M A := fun st => (Ok a, st).

Definition bind {A B} (m : M A) (f : A -> M B) : M B :=
  fun st =>
    match m st with
    | (Ok a, st') => f a st'
    | (Throw e, st') => (Throw e, st')
    end.

#[export] Instance M_ret : MRet M := @ret.
#[export] Instance M_bind : MBind M := fun A B f m => bind m f.

(** An expression without effects on the state. *)
Definition lift {A} (x : outcome A) : M A := fun st => (x, st).

(** A call on a collaborator, awaited or not: it is logged, and its result
    is what the collaborator returns, resolves to, throws or rejects with. *)
Definition call (ev : event) (result : outcome value) : M value :=
  fun st => (result, State (globals st) (calls st ++ [ev])).

(** [name = v] in strict code (a class body always is), for a name that
    neither the method nor the module declares: the reference resolves in
    the global environment or not at all, and [PutValue] on an unresolvable
    reference throws a ReferenceError, after [v] has been evaluated. *)
Definition assign (name : string) (v : value) : M unit :=
  fun st =>
    match globals st !! name with
    | Some _ => (Ok tt, State (<[name := v]> (globals st)) (calls st))
    | None => (Throw (ReferenceError name), st)
    end.

(** Reading such a name. *)
Definition read (name : string) : M value :=
  fun st =>
    match globals st !! name with
    | Some v => (Ok v, st)
    | None => (Throw (ReferenceError name), st)
    end.

(** The injected collaborators, by the methods the class calls on them.
    [account.getAddress()] is called without [await]; the other three are
    awaited.  Each method returns (resolves) or throws (rejects). *)
Record Account : Type := { account_getAddress : outcome value }.
Record Api : Type := {
  api_get : value -> outcome value;
  api_post : value -> outcome value
}.
Record OffersHelper : Type := { constructV2Offer : value -> outcome value }.

(** The private fields [#account], [#api], [#helper]; [#loans] serves
    [revoke] only. *)
Record t : Type := {
  account : Account;
  api : Api;
  helper : OffersHelper
}.

(** The request objects [{uri: 'offers', params}] and
    [{uri: 'offers', payload}]. *)
Definition get_request (params : value) : value :=
  VObj {[ "uri" := VStr "offers"; "params" := params ]}.

Definition post_request (payload : value) : value :=
  VObj {[ "uri" := VStr "offers"; "payload" := payload ]}.

(** The [params] that [get] builds (lines 53 to 69). *)
Definition get_params (this : t) (options : value) : M value :=
  if truthy (path_opt options ["filters"; "nft"]) then
    address ← lift (path options ["filters"; "nft"; "address"]);
    if truthy address && truthy (path_opt options ["filters"; "nft"; "id"]) then
      nftAddress ← lift (path options ["filters"; "nft"; "address"]);
      nftId ← lift (path options ["filters"; "nft"; "id"]);
      ret (VObj {[ "nftAddress" := nftAddress; "nftId" := nftId ]})
    else
      address ← lift (path options ["filters"; "nft"; "address"]);
      if truthy address then
        nftAddress ← lift (path options ["filters"; "nft"; "address"]);
        ret (VObj {[ "nftAddress" := nftAddress ]})
      else ret (VObj ∅)
  else
    lenderAddress ← call AccountGetAddress (account_getAddress (account this));
    ret (VObj {[ "lenderAddress" := lenderAddress ]}).

(** [async get(options = {})]. *)
Definition get (this : t) (options : value) : M value :=
  let options := match options with VUndef => VObj ∅ | _ => options end in
  params ← get_params this options;
  response ← call (ApiGet (get_request params))
                  (api_get (api this) (get_request params));
  lift (JS.get response "results").

(** Line 112: [options = { ...options.listing, ...options }]. *)
Definition merge_listing (options : value) : outcome value :=
  listing ← JS.get options "listing";
  Ok (spread2 listing options).

(** [async create(options)].  The method declares [errors],
    [simulationDryRun], [contractName] and [payload]; [response] is
    declared nowhere in the file. *)
Definition create (this : t) (options : value) : M value :=
  options ← lift (merge_listing options);
  let simulationDryRun :=
    or_else (path_opt options ["simulation"; "dryRun"]) (VBool false) in
  contractName ← lift (path options ["nftfi"; "contract"; "name"]);
  (if strict_eq_str contractName "v2-1.loan.fixed" then
     payload ← call (ConstructV2Offer options)
                    (constructV2Offer (helper this) options);
     if strict_eq_false simulationDryRun then
       response ← call (ApiPost (post_request payload))
                       (api_post (api this) (post_request payload));
       assign "response" response
     else
       assign "response" payload
   else
     name ← lift (to_string contractName);
     let errors :=
       VObj {[ "nftfi.contract.name" := VArr [VStr (name +:+ " not supported")] ]} in
     assign "response" (VObj {[ "errors" := errors ]}));;
  read "response".

End Offers.

(** ** The class MultisigGnosisOwner *)

Module MultisigGnosisOwner.

(** A signer or wallet, by the two methods the class calls on one; both
    are awaited. *)
Record Signer : Type := {
  signer_getAddress : outcome value;
  signMessage : value -> outcome value
}.

(** The functions of the [ethers] library that the class calls:
    [utils.hashMessage], [utils._TypedDataEncoder.hash] (domain, types,
    value), [utils.arrayify], [utils.computeAddress] and the constructor
    [new Wallet(privateKey)]. *)
Record Ethers : Type := {
  hashMessage : value -> outcome value;
  typedDataHash : value -> value -> value -> outcome value;
  arrayify : value -> outcome value;
  computeAddress : value -> outcome value;
  Wallet : value -> outcome Signer
}.

(** The private fields that [getAddress] and [sign] read.  [signer] is
    [None] when the constructor received none ([undefined] or [null]). *)
Record t : Type := {
  multisig : value;
  config : value;
  ethers : Ethers;
  privateKey : value;
  signer : option Signer
}.

Definition getPrivateKey (this : t) : value := privateKey this.

Definition getSigner (this : t) : option Signer := signer this.

(** [async getAddress()]. *)
Definition getAddress (this : t) : outcome value :=
  signerAddress ←
    match signer this with
    | Some s => signer_getAddress s
    | None => Ok VUndef
    end;
  if truthy signerAddress then Ok signerAddress
  else computeAddress (ethers this) (privateKey this).

(** [[{ type: 'bytes', name: 'message' }]]. *)
Definition SafeMessage : value :=
  VArr [VObj {[ "type" := VStr "bytes"; "name" := VStr "message" ]}].

(** Lines 72 to 83 up to the awaited [wallet.signMessage(...)]: what the
    underlying wallet produces. *)
Definition wallet_signature (this : t) (msg : value) : outcome value :=
  verifyingContract ← path (multisig this) ["safe"; "address"];
  chainId ← get (config this) "chainId";
  message ← hashMessage (ethers this) msg;
  hash ← typedDataHash (ethers this)
           (VObj {[ "verifyingContract" := verifyingContract; "chainId" := chainId ]})
           (VObj {[ "SafeMessage" := SafeMessage ]})
           (VObj {[ "message" := message ]});
  wallet ←
    match getSigner this with
    | Some s => Ok s
    | None => Wallet (ethers this) (getPrivateKey this)
    end;
  bytes ← arrayify (ethers this) hash;
  signMessage wallet bytes.

(** [async sign(msg)]. *)
Definition sign (this : t) (msg : value) : outcome value :=
  signature ← wallet_signature this msg;
  signature ← replace_method signature "1b" "1f";
  replace_method signature "1c" "20".

End MultisigGnosisOwner.

(** ** Concrete collaborators and inputs

    Stand-ins for the injected collaborators, in the manner of the stubs a
    unit test would inject, and the inputs of the documentation's
    examples. *)

Module Fixtures.

Definition lender : value := VStr "0x1e4de5".

Definition payload_of (options : value) : value :=
  VObj {[ "terms" := prop options "terms"; "nft" := prop options "nft" ]}.

Definition posted : value := VObj {[ "result" := VStr "offer-1" ]}.

Definition offers : Offers.t :=
  {| Offers.account := {| Offers.account_getAddress := Ok lender |};
     Offers.api :=
       {| Offers.api_get := fun _ => Ok (VObj {[ "results" := VArr [] ]});
          Offers.api_post := fun _ => Ok posted |};
     Offers.helper := {| Offers.constructV2Offer := fun o => Ok (payload_of o) |} |}.

(** A global environment without a binding for [response], as Node and
    browsers provide it, and no call made yet. *)
Definition fresh : Offers.state := Offers.State ∅ [].

(** An environment in which something did create a global [response]. *)
Definition declared : Offers.state := Offers.State {[ "response" := VUndef ]} [].

Definition contract (name : string) : value :=
  VObj {[ "contract" := VObj {[ "name" := VStr name ]} ]}.

Definition nft_42 : value :=
  VObj {[ "address" := VStr "0x00000000"; "id" := VStr "42" ]}.

Definition nft_address_only : value :=
  VObj {[ "address" := VStr "0x00000000" ]}.

Definition nft_id_only : value := VObj {[ "id" := VStr "42" ]}.

Definition filter_nft (nft : value) : value :=
  VObj {[ "filters" := VObj {[ "nft" := nft ]} ]}.

(** The options of the example in the documentation of [create]. *)
Definition offer_v2_1 : value :=
  VObj {[ "terms" := VObj {[ "duration" := VNum "604800" ]};
          "nft" := nft_42;
          "nftfi" := contract "v2-1.loan.fixed" ]}.

Definition offer_v2_1_dry_run : value :=
  VObj {[ "terms" := VObj {[ "duration" := VNum "604800" ]};
          "nft" := nft_42;
          "nftfi" := contract "v2-1.loan.fixed";
          "simulation" := VObj {[ "dryRun" := VBool true ]} ]}.

Definition offer_v1 : value :=
  VObj {[ "nft" := nft_42; "nftfi" := contract "v1.loan.fixed" ]}.

(** Root [a = 2] over [listing.a = 1], with a field that only the listing
    has. *)
Definition listing_ab : value := VObj {[ "a" := VNum "1"; "b" := VNum "3" ]}.

Definition offer_with_listing : gmap string value :=
  {[ "a" := VNum "2";
     "listing" := listing_ab;
     "nftfi" := contract "v2-1.loan.fixed" ]}.

Definition key : value := VStr "0x0123456789abcdef".
Definition derived : value := VStr "0xd3a1ed".

Definition ethers : MultisigGnosisOwner.Ethers :=
  {| MultisigGnosisOwner.hashMessage := fun _ => Ok (VStr "0xaa");
     MultisigGnosisOwner.typedDataHash := fun _ _ _ => Ok (VStr "0xbb");
     MultisigGnosisOwner.arrayify := fun h => Ok (VArr [h]);
     MultisigGnosisOwner.computeAddress := fun _ => Ok derived;
     MultisigGnosisOwner.Wallet := fun _ =>
       Ok {| MultisigGnosisOwner.signer_getAddress := Ok derived;
             MultisigGnosisOwner.signMessage := fun _ => Ok (VStr "0x5e1c") |} |}.

(** A signer with the given address and signature. *)
Definition signer_with (address signature : value) : MultisigGnosisOwner.Signer :=
  {| MultisigGnosisOwner.signer_getAddress := Ok address;
     MultisigGnosisOwner.signMessage := fun _ => Ok signature |}.

(** A signer whose address resolves to the empty string. *)
Definition addressless_signer : MultisigGnosisOwner.Signer :=
  signer_with (VStr "") (VStr "0x5e1b").

Definition owner (s : option MultisigGnosisOwner.Signer) : MultisigGnosisOwner.t :=
  {| MultisigGnosisOwner.multisig :=
       VObj {[ "safe" := VObj {[ "address" := VStr "0x5afe" ]} ]};
     MultisigGnosisOwner.config := VObj {[ "chainId" := VNum "1" ]};
     MultisigGnosisOwner.ethers := ethers;
     MultisigGnosisOwner.privateKey := key;
     MultisigGnosisOwner.signer := s |}.

End Fixtures.

(** ** src/nftfi/offers.js: delete and revoke *)

Module OffersRest.

(** The calls the two methods make. *)
Inductive event : Type :=
  | ApiDelete (request : value)
  | RevokeOffer (options : value).

(** [#api.delete] and [#loans.revokeOffer], both awaited. *)
Record Api : Type := { api_delete : value -> outcome value }.
Record Loans : Type := { revokeOffer : value -> outcome value }.

Record t : Type := {
  api : Api;
  loans : Loans
}.

(** The request object [{ uri }]. *)
Definition delete_request (uri : string) : value :=
  VObj {[ "uri" := VStr uri ]}.

(** Line 157: the template literal [`offers/${options.offer.id}`]. *)
Definition delete_uri (options : value) : outcome string :=
  id ← path options ["offer"; "id"];
  id ← to_string id;
  Ok ("offers/" +:+ id).

(** [async delete(options)]: the outcome and the calls made. *)
Definition delete (this : t) (options : value) : outcome value * list event :=
  match delete_uri options with
  | Throw e => (Throw e, [])
  | Ok uri =>
      (api_delete (api this) (delete_request uri),
       [ApiDelete (delete_request uri)])
  end.

(** [async revoke(options)]. *)
Definition revoke (this : t) (options : value) : outcome value * list event :=
  (revokeOffer (loans this) options, [RevokeOffer options]).

End OffersRest.

(** ** MultisigGnosisOwner.getSafeSDK *)

Module SafeSDK.

Import MultisigGnosisOwner.

(** What [getSafeSDK] reads beside the fields of [MultisigGnosisOwner.t]:
    the private field [#provider], the two-argument
    [new Wallet(privateKey, provider)], the constructor
    [new EthersAdapter.default({ ethers, signer })] and
    [Safe.default.create({ ethAdapter, safeAddress })], which returns a
    promise: its outcome is the promise's, not a throw of the call. *)
Record Libs (Adapter : Type) : Type := {
  provider : value;
  WalletWithProvider : value -> value -> outcome Signer;
  EthersAdapter : Ethers -> Signer -> outcome Adapter;
  Safe_create : Adapter -> value -> outcome value
}.
Arguments provider {Adapter} _.
Arguments WalletWithProvider {Adapter} _ _ _.
Arguments EthersAdapter {Adapter} _ _ _.
Arguments Safe_create {Adapter} _ _ _.

(** [getSafeSDK()] is not [async]: the outer outcome is what the call
    itself returns or throws, the inner one what the returned promise
    settles to. *)
Definition getSafeSDK {Adapter} (libs : Libs Adapter) (this : t)
  : outcome (outcome value) :=
  safeAddress ← path (multisig this) ["safe"; "address"];
  signer ←
    match getSigner this with
    | Some s => Ok s
    | None => WalletWithProvider libs (getPrivateKey this) (provider libs)
    end;
  ethAdapter ← EthersAdapter libs (ethers this) signer;
  Ok (Safe_create libs ethAdapter safeAddress).

End SafeSDK.

(** ** Further inputs *)

Module Cases.

Definition deleter (answer : outcome value) : OffersRest.t :=
  {| OffersRest.api := {| OffersRest.api_delete := fun _ => answer |};
     OffersRest.loans := {| OffersRest.revokeOffer := fun _ => answer |} |}.

Definition offer_id (id : value) : value :=
  VObj {[ "offer" := VObj {[ "id" := id ]} ]}.

Definition offer_without_id : value := VObj {[ "offer" := VObj ∅ ]}.

Definition no_offer : value := VObj ∅.

Definition rejection : error := Thrown (VStr "503").

(** An [Offers] whose account, API query, API post or helper rejects. *)
Definition offers_failing_account : Offers.t :=
  {| Offers.account := {| Offers.account_getAddress := Throw rejection |};
     Offers.api := Offers.api Fixtures.offers;
     Offers.helper := Offers.helper Fixtures.offers |}.

Definition offers_failing_helper : Offers.t :=
  {| Offers.account := Offers.account Fixtures.offers;
     Offers.api := Offers.api Fixtures.offers;
     Offers.helper := {| Offers.constructV2Offer := fun _ => Throw rejection |} |}.

Definition offers_failing_post : Offers.t :=
  {| Offers.account := Offers.account Fixtures.offers;
     Offers.api :=
       {| Offers.api_get := Offers.api_get (Offers.api Fixtures.offers);
          Offers.api_post := fun _ => Throw rejection |};
     Offers.helper := Offers.helper Fixtures.offers |}.

(** The [params] of a query by exact NFT. *)
Definition nft_query : value :=
  VObj {[ "nftAddress" := VStr "0x00000000"; "nftId" := VStr "42" ]}.

(** The answer of [Fixtures.offers] to any query. *)
Definition no_results : value := VObj {[ "results" := VArr [] ]}.

(** A dry run requested with a string rather than a boolean. *)
Definition offer_v2_1_dry_run_text : value :=
  VObj {[ "nft" := Fixtures.nft_42;
          "nftfi" := Fixtures.contract "v2-1.loan.fixed";
          "simulation" := VObj {[ "dryRun" := VStr "false" ]} ]}.

Definition offer_v2_1_map : gmap string value :=
  {[ "nft" := Fixtures.nft_42;
     "nftfi" := Fixtures.contract "v2-1.loan.fixed" ]}.

(** What [create] computes for [Fixtures.offer_v1]. *)
Definition v1_not_supported : value :=
  VObj {[ "errors" :=
    VObj {[ "nftfi.contract.name" := VArr [VStr "v1.loan.fixed not supported"] ]} ]}.

(** An owner with a signer and another private key and wallet
    constructor than [Fixtures.owner]. *)
Definition other_ethers : MultisigGnosisOwner.Ethers :=
  {| MultisigGnosisOwner.hashMessage :=
       MultisigGnosisOwner.hashMessage Fixtures.ethers;
     MultisigGnosisOwner.typedDataHash :=
       MultisigGnosisOwner.typedDataHash Fixtures.ethers;
     MultisigGnosisOwner.arrayify :=
       MultisigGnosisOwner.arrayify Fixtures.ethers;
     MultisigGnosisOwner.computeAddress := fun _ => Throw TypeError;
     MultisigGnosisOwner.Wallet := fun _ => Throw TypeError |}.

Definition keyless_owner (s : option MultisigGnosisOwner.Signer)
  : MultisigGnosisOwner.t :=
  {| MultisigGnosisOwner.multisig :=
       MultisigGnosisOwner.multisig (Fixtures.owner s);
     MultisigGnosisOwner.config := MultisigGnosisOwner.config (Fixtures.owner s);
     MultisigGnosisOwner.ethers := other_ethers;
     MultisigGnosisOwner.privateKey := VUndef;
     MultisigGnosisOwner.signer := s |}.

Definition owner_without_safe : MultisigGnosisOwner.t :=
  {| MultisigGnosisOwner.multisig := VObj ∅;
     MultisigGnosisOwner.config := VObj {[ "chainId" := VNum "1" ]};
     MultisigGnosisOwner.ethers := Fixtures.ethers;
     MultisigGnosisOwner.privateKey := Fixtures.key;
     MultisigGnosisOwner.signer := None |}.

Definition rejecting_signer : MultisigGnosisOwner.Signer :=
  {| MultisigGnosisOwner.signer_getAddress := Throw rejection;
     MultisigGnosisOwner.signMessage := fun _ => Ok VUndef |}.

Definition signer_1b : MultisigGnosisOwner.Signer :=
  Fixtures.signer_with Fixtures.derived (VStr "0x5e1b").

(** Safe libraries whose session creation settles to [answer]; an adapter
    is the signer it wraps. *)
Definition safe_libs (answer : outcome value)
  : SafeSDK.Libs MultisigGnosisOwner.Signer :=
  {| SafeSDK.provider := VStr "provider";
     SafeSDK.WalletWithProvider := fun _ _ => Ok signer_1b;
     SafeSDK.EthersAdapter := fun _ s => Ok s;
     SafeSDK.Safe_create := fun _ _ => answer |}.

Definition safe_libs_without_wallet (answer : outcome value)
  : SafeSDK.Libs MultisigGnosisOwner.Signer :=
  {| SafeSDK.provider := VUndef;
     SafeSDK.WalletWithProvider := fun _ _ => Throw TypeError;
     SafeSDK.EthersAdapter := fun _ s => Ok s;
     SafeSDK.Safe_create := fun _ _ => answer |}.

End Cases.

(** * Properties *)

(** ** The run-time fragment on small inputs *)

Example spread_root_wins :
  spread2 (VObj {[ "a" := VNum "1"; "b" := VNum "3" ]})
          (VObj {[ "a" := VNum "2" ]})
  = VObj {[ "a" := VNum "2"; "b" := VNum "3" ]}.
Proof. vm_compute. reflexivity. Qed.

Example spread_string_listing :
  own_props (spread2 (VStr "hi") (VObj {[ "a" := VNull ]})) !! "1" = Some (VStr "i").
Proof. vm_compute. reflexivity. Qed.

Example to_string_array :
  to_string (VArr [VNum "1"; VNull; VStr "x"; VObj ∅]) = Ok "1,,x,[object Object]".
Proof. vm_compute. reflexivity. Qed.

Example replace_1b : replace_at_end "1b" "1f" "0x1b221b" = "0x1b221f".
Proof. reflexivity. Qed.

Example replace_1b_upper : replace_at_end "1b" "1f" "0x221B" = "0x221B".
Proof. reflexivity. Qed.

Example prop_index : prop (VStr "abc") "1" = VStr "b".
Proof. vm_compute. reflexivity. Qed.

Example path_missing : path (VObj ∅) ["nftfi"; "contract"] = Throw TypeError.
Proof. reflexivity. Qed.

(** Closing a goal by an instance of a proved statement, both sides
    evaluated. *)
Ltac computed := vm_compute; reflexivity.
Ltac instance_of H :=
  let X := fresh "X" in
  pose proof H as X; vm_compute in X; vm_compute; exact X.

(** ** Property reads *)

Section Reads.

Lemma truthy_not_nullish v : truthy v = true -> nullish v = false.
Proof. by destruct v. Qed.

Lemma get_opt_nullish v k : nullish v = true -> get_opt v k = VUndef.
Proof. unfold get_opt. by intros ->. Qed.

Lemma get_not_nullish v k : nullish v = false -> get v k = Ok (get_opt v k).
Proof. unfold get, get_opt. by intros ->. Qed.

Lemma path_opt_undef ks : path_opt VUndef ks = VUndef.
Proof. induction ks as [|k ks IH]; [done|]. simpl. by rewrite get_opt_nullish. Qed.

(** A property read after an optional chain that reached a value other
    than [undefined] and [null] does not throw, and reads what the optional
    chain reads. *)
Lemma path_snoc ks v k :
  nullish (path_opt v ks) = false ->
  path v (ks ++ [k]) = Ok (path_opt v (ks ++ [k])).
Proof.
  revert v. induction ks as [|k' ks IH]; intros v Hn; simpl in *.
  { by rewrite get_not_nullish. }
  destruct (nullish v) eqn:Hv.
  { rewrite get_opt_nullish, path_opt_undef in Hn; done. }
  rewrite get_not_nullish by done. simpl. by apply IH.
Qed.

(** A falsy value has no truthy [address]. *)
Lemma get_opt_address_falsy v :
  truthy v = false -> truthy (get_opt v "address") = false.
Proof.
  destruct v as [| |b|t|s|l|m]; try done.
  simpl. destruct (String.eqb_spec s ""); [subst; intros _|done].
  vm_compute. reflexivity.
Qed.

(** The default parameter [options = {}] reads like [undefined] along any
    chain. *)
Lemma path_opt_default_param options k ks :
  path_opt (match options with VUndef => VObj ∅ | _ => options end) (k :: ks)
  = path_opt options (k :: ks).
Proof.
  by destruct options.
Qed.

End Reads.

(** ** Offers.get *)

Section OffersGet.

Import Offers.

Variable this : Offers.t.

#[local] Arguments path : simpl never.
#[local] Arguments path_opt : simpl never.

Ltac step_M :=
  unfold mbind, M_bind, bind, mret, M_ret, ret, lift, call; simpl.

(** The three shapes of [params], as [get_params] computes them. *)
Lemma get_params_nft_and_id options st :
  truthy (path_opt options ["filters"; "nft"; "address"]) = true ->
  truthy (path_opt options ["filters"; "nft"; "id"]) = true ->
  get_params this options st
  = (Ok (VObj {[ "nftAddress" := path_opt options ["filters"; "nft"; "address"];
                 "nftId" := path_opt options ["filters"; "nft"; "id"] ]}), st).
Proof.
  intros Ha Hi.
  assert (truthy (path_opt options ["filters"; "nft"]) = true) as Hnft.
  { destruct (truthy (path_opt options ["filters"; "nft"])) eqn:E; [done|].
    apply get_opt_address_falsy in E.
    change (truthy (path_opt options ["filters"; "nft"; "address"]) = false) in E.
    congruence. }
  pose proof (truthy_not_nullish _ Hnft) as Hn.
  pose proof (path_snoc ["filters"; "nft"] options "address" Hn) as Pa.
  pose proof (path_snoc ["filters"; "nft"] options "id" Hn) as Pi.
  simpl app in Pa, Pi.
  unfold get_params. rewrite Hnft. step_M.
  rewrite !Pa, !Pi, Ha, Hi. reflexivity.
Qed.

Lemma get_params_nft_only options st :
  truthy (path_opt options ["filters"; "nft"; "address"]) = true ->
  truthy (path_opt options ["filters"; "nft"; "id"]) = false ->
  get_params this options st
  = (Ok (VObj {[ "nftAddress" := path_opt options ["filters"; "nft"; "address"] ]}), st).
Proof.
  intros Ha Hi.
  assert (truthy (path_opt options ["filters"; "nft"]) = true) as Hnft.
  { destruct (truthy (path_opt options ["filters"; "nft"])) eqn:E; [done|].
    apply get_opt_address_falsy in E.
    change (truthy (path_opt options ["filters"; "nft"; "address"]) = false) in E.
    congruence. }
  pose proof (truthy_not_nullish _ Hnft) as Hn.
  pose proof (path_snoc ["filters"; "nft"] options "address" Hn) as Pa.
  simpl app in Pa.
  unfold get_params. rewrite Hnft. step_M.
  rewrite !Pa, Ha, Hi. reflexivity.
Qed.

Lemma get_params_nft_without_address options st :
  truthy (path_opt options ["filters"; "nft"]) = true ->
  truthy (path_opt options ["filters"; "nft"; "address"]) = false ->
  get_params this options st = (Ok (VObj ∅), st).
Proof.
  intros Hnft Ha.
  pose proof (truthy_not_nullish _ Hnft) as Hn.
  pose proof (path_snoc ["filters"; "nft"] options "address" Hn) as Pa.
  simpl app in Pa.
  unfold get_params. rewrite Hnft. step_M.
  rewrite !Pa, Ha. reflexivity.
Qed.

Lemma get_params_no_nft options st :
  truthy (path_opt options ["filters"; "nft"]) = false ->
  get_params this options st
  = (match account_getAddress (account this) with
     | Ok a => Ok (VObj {[ "lenderAddress" := a ]})
     | Throw e => Throw e
     end, State (globals st) (calls st ++ [AccountGetAddress])).
Proof.
  intros Hnft. unfold get_params. rewrite Hnft. step_M.
  by destruct (account_getAddress (account this)).
Qed.

(** Once [params] is built, [get] makes exactly one more call: the query. *)
Lemma get_calls options st params st' :
  get_params this (match options with VUndef => VObj ∅ | _ => options end) st
  = (Ok params, st') ->
  calls (Offers.get this options st).2 = calls st' ++ [ApiGet (get_request params)].
Proof.
  intros Hp. unfold Offers.get. step_M. rewrite Hp.
  by destruct (api_get (api this) (get_request params)).
Qed.

End OffersGet.

Section OffersGetClaims.

Import Offers.

(** C5.  Whatever the options of [get]: when [options.filters.nft.address]
    and [options.filters.nft.id] are both present (they pass the method's
    own test, truthiness), the API is queried with
    [{nftAddress, nftId}]; when only the address is, with [{nftAddress}];
    and when there is no [options.filters.nft], with
    [{lenderAddress}] holding the address the account returned. *)
Theorem get_queries_by_filter (this : Offers.t) (options : value) (st : state) :
  let address := path_opt options ["filters"; "nft"; "address"] in
  let id := path_opt options ["filters"; "nft"; "id"] in
  (truthy address = true -> truthy id = true ->
   calls (Offers.get this options st).2
   = calls st ++
     [ApiGet (get_request (VObj {[ "nftAddress" := address; "nftId" := id ]}))])
  /\ (truthy address = true -> truthy id = false ->
      calls (Offers.get this options st).2
      = calls st ++ [ApiGet (get_request (VObj {[ "nftAddress" := address ]}))])
  /\ (truthy (path_opt options ["filters"; "nft"]) = false ->
      forall a, account_getAddress (account this) = Ok a ->
      calls (Offers.get this options st).2
      = calls st ++
        [AccountGetAddress;
         ApiGet (get_request (VObj {[ "lenderAddress" := a ]}))]).
Proof.
  intros address id. subst address id. repeat split.
  - intros Ha Hi. erewrite get_calls; [reflexivity|].
    by rewrite get_params_nft_and_id, !path_opt_default_param
      by (by rewrite path_opt_default_param).
  - intros Ha Hi. erewrite get_calls; [reflexivity|].
    by rewrite get_params_nft_only, !path_opt_default_param
      by (by rewrite path_opt_default_param).
  - intros Hnft a Hacc. erewrite get_calls; cycle 1.
    { rewrite get_params_no_nft by (by rewrite path_opt_default_param).
      rewrite Hacc. reflexivity. }
    simpl. by rewrite <- app_assoc.
Qed.

Lemma get_queries_by_filter_witness :
  calls (Offers.get Fixtures.offers (Fixtures.filter_nft Fixtures.nft_42) Fixtures.fresh).2
  = [ApiGet (get_request (VObj {[ "nftAddress" := VStr "0x00000000";
                                  "nftId" := VStr "42" ]}))]
  /\ calls (Offers.get Fixtures.offers
             (Fixtures.filter_nft Fixtures.nft_address_only)
             Fixtures.fresh).2
     = [ApiGet (get_request (VObj {[ "nftAddress" := VStr "0x00000000" ]}))]
  /\ calls (Offers.get Fixtures.offers VUndef Fixtures.fresh).2
     = [AccountGetAddress;
        ApiGet (get_request (VObj {[ "lenderAddress" := Fixtures.lender ]}))].
Proof.
  split; [|split].
  - instance_of
      (proj1 (get_queries_by_filter Fixtures.offers
                (Fixtures.filter_nft Fixtures.nft_42) Fixtures.fresh)
         ltac:(computed) ltac:(computed)).
  - instance_of
      (proj1 (proj2 (get_queries_by_filter Fixtures.offers
                (Fixtures.filter_nft Fixtures.nft_address_only)
                Fixtures.fresh))
         ltac:(computed) ltac:(computed)).
  - instance_of
      (proj2 (proj2 (get_queries_by_filter Fixtures.offers VUndef Fixtures.fresh))
         ltac:(computed) Fixtures.lender ltac:(computed)).
Defined.

(** C9.  When [options.filters.nft] is present but its [address] is absent
    or falsy (an empty [nft] object, or one with only an [id]), the API is
    queried with the empty [params] object: the account is not asked for
    its address and nothing is put in [params]. *)
Theorem get_nft_without_address_queries_all
    (this : Offers.t) (options : value) (st : state) :
  truthy (path_opt options ["filters"; "nft"]) = true ->
  truthy (path_opt options ["filters"; "nft"; "address"]) = false ->
  calls (Offers.get this options st).2
  = calls st ++ [ApiGet (get_request (VObj ∅))].
Proof.
  intros Hnft Ha. erewrite get_calls; [reflexivity|].
  by rewrite get_params_nft_without_address
    by (by rewrite path_opt_default_param).
Qed.

Lemma get_nft_without_address_queries_all_witness :
  calls (Offers.get Fixtures.offers
           (Fixtures.filter_nft Fixtures.nft_id_only) Fixtures.fresh).2
  = [ApiGet (get_request (VObj ∅))]
  /\ calls (Offers.get Fixtures.offers (Fixtures.filter_nft (VObj ∅)) Fixtures.fresh).2
     = [ApiGet (get_request (VObj ∅))].
Proof.
  split.
  - instance_of
      (get_nft_without_address_queries_all Fixtures.offers
         (Fixtures.filter_nft Fixtures.nft_id_only) Fixtures.fresh
         ltac:(computed) ltac:(computed)).
  - instance_of
      (get_nft_without_address_queries_all Fixtures.offers
         (Fixtures.filter_nft (VObj ∅)) Fixtures.fresh
         ltac:(computed) ltac:(computed)).
Defined.

End OffersGetClaims.

(** ** Offers.create *)

Section OffersCreate.

Import Offers.

Variable this : Offers.t.

#[local] Arguments path : simpl never.
#[local] Arguments path_opt : simpl never.
#[local] Arguments to_string : simpl never.

Ltac step_M :=
  unfold mbind, M_bind, bind, mret, M_ret, ret, lift, call, assign, read; simpl.

(** The calls logged once the last collaborator has answered and
    [response] is assigned and read back. *)
Ltac finish_calls :=
  repeat match goal with
         | |- context [match ?x with Ok _ => _ | Throw _ => _ end] => destruct x; simpl
         | |- context [globals ?st !! "response"] =>
             destruct (globals st !! "response"); simpl
         end;
  rewrite ?lookup_insert_eq; simpl; rewrite <- ?app_assoc; simpl.

(** [create] from the switch on: what it does once the options are merged
    and the contract name is read. *)
Lemma create_from_switch options merged name st :
  merge_listing options = Ok merged ->
  path merged ["nftfi"; "contract"; "name"] = Ok name ->
  globals st !! "response" = None ->
  create this options st =
    if strict_eq_str name "v2-1.loan.fixed" then
      match constructV2Offer (helper this) merged with
      | Throw e => (Throw e, State (globals st) (calls st ++ [ConstructV2Offer merged]))
      | Ok payload =>
          if strict_eq_false
               (or_else (path_opt merged ["simulation"; "dryRun"]) (VBool false))
          then
            match api_post (api this) (post_request payload) with
            | Throw e =>
                (Throw e,
                 State (globals st)
                   ((calls st ++ [ConstructV2Offer merged])
                    ++ [ApiPost (post_request payload)]))
            | Ok _ =>
                (Throw (ReferenceError "response"),
                 State (globals st)
                   ((calls st ++ [ConstructV2Offer merged])
                    ++ [ApiPost (post_request payload)]))
            end
          else
            (Throw (ReferenceError "response"),
             State (globals st) (calls st ++ [ConstructV2Offer merged]))
      end
    else
      match to_string name with
      | Throw e => (Throw e, st)
      | Ok _ => (Throw (ReferenceError "response"), st)
      end.
Proof.
  intros Hm Hn Hg. unfold create. step_M. rewrite Hm, Hn.
  destruct (strict_eq_str name "v2-1.loan.fixed").
  - destruct (constructV2Offer (helper this) merged) as [payload|e]; [|done].
    destruct (strict_eq_false _).
    + destruct (api_post (api this) (post_request payload)); [|done].
      simpl. by rewrite Hg.
    + simpl. by rewrite Hg.
  - destruct (to_string name); [|done]. by rewrite Hg.
Qed.

(** Before the switch, [create] can only throw. *)
Lemma create_before_switch options st :
  (forall merged name,
     merge_listing options = Ok merged ->
     path merged ["nftfi"; "contract"; "name"] <> Ok name) ->
  exists e, create this options st = (Throw e, st).
Proof.
  intros Hno. unfold create. step_M.
  destruct (merge_listing options) as [merged|e]; [|by eexists].
  destruct (path merged ["nftfi"; "contract"; "name"]) as [name|e] eqn:Hn;
    [|by eexists].
  by destruct (Hno merged name).
Qed.

(** So, without a binding for [response], [create] throws on every input. *)
Lemma create_throws options st :
  globals st !! "response" = None ->
  is_throw (create this options st).1 = true.
Proof.
  intros Hg.
  destruct (merge_listing options) as [merged|e0] eqn:Hm.
  - destruct (path merged ["nftfi"; "contract"; "name"]) as [name|e1] eqn:Hn.
    + rewrite (create_from_switch options merged name st Hm Hn Hg).
      repeat case_match; done.
    + destruct (create_before_switch options st) as [e ->]; [congruence|done].
  - destruct (create_before_switch options st) as [e ->]; [congruence|done].
Qed.

(** With a binding for [response] in the global environment (a script or
    another module created one), the assignments go through, the binding is
    overwritten and [create] returns what it stored there. *)
Lemma create_from_switch_declared options merged name old st :
  merge_listing options = Ok merged ->
  path merged ["nftfi"; "contract"; "name"] = Ok name ->
  globals st !! "response" = Some old ->
  create this options st =
    if strict_eq_str name "v2-1.loan.fixed" then
      match constructV2Offer (helper this) merged with
      | Throw e => (Throw e, State (globals st) (calls st ++ [ConstructV2Offer merged]))
      | Ok payload =>
          if strict_eq_false
               (or_else (path_opt merged ["simulation"; "dryRun"]) (VBool false))
          then
            match api_post (api this) (post_request payload) with
            | Throw e =>
                (Throw e,
                 State (globals st)
                   ((calls st ++ [ConstructV2Offer merged])
                    ++ [ApiPost (post_request payload)]))
            | Ok response =>
                (Ok response,
                 State (<["response" := response]> (globals st))
                   ((calls st ++ [ConstructV2Offer merged])
                    ++ [ApiPost (post_request payload)]))
            end
          else
            (Ok payload,
             State (<["response" := payload]> (globals st))
               (calls st ++ [ConstructV2Offer merged]))
      end
    else
      match to_string name with
      | Throw e => (Throw e, st)
      | Ok s =>
          let response :=
            VObj {[ "errors" :=
              VObj {[ "nftfi.contract.name" := VArr [VStr (s +:+ " not supported")] ]} ]} in
          (Ok response, State (<["response" := response]> (globals st)) (calls st))
      end.
Proof.
  intros Hm Hn Hg. unfold create. step_M. rewrite Hm, Hn.
  destruct (strict_eq_str name "v2-1.loan.fixed").
  - destruct (constructV2Offer (helper this) merged) as [payload|e]; [|done].
    destruct (strict_eq_false _).
    + destruct (api_post (api this) (post_request payload)); [|done].
      simpl. rewrite Hg. simpl. by rewrite lookup_insert_eq.
    + simpl. rewrite Hg. simpl. by rewrite lookup_insert_eq.
  - destruct (to_string name); [|done]. rewrite Hg. simpl.
    by rewrite lookup_insert_eq.
Qed.

(** The helper is only ever called on the merged options. *)
Lemma create_calls options merged st :
  merge_listing options = Ok merged ->
  exists rest,
    calls (create this options st).2 = calls st ++ rest
    /\ forall x, ConstructV2Offer x ∈ rest -> x = merged.
Proof.
  intros Hm. unfold create. step_M. rewrite Hm.
  destruct (path merged ["nftfi"; "contract"; "name"]) as [name|e].
  2: { exists []. rewrite app_nil_r. split; [done|]. by intros x ?%elem_of_nil. }
  destruct (strict_eq_str name "v2-1.loan.fixed").
  - destruct (constructV2Offer (helper this) merged) as [payload|e].
    2: { exists [ConstructV2Offer merged]. split; [done|].
         intros x ?%list_elem_of_singleton. congruence. }
    destruct (strict_eq_false _).
    + exists [ConstructV2Offer merged; ApiPost (post_request payload)].
      split; [by finish_calls|].
      intros x [?|[?|?%elem_of_nil]%elem_of_cons]%elem_of_cons; [congruence|done..].
    + exists [ConstructV2Offer merged]. split; [by finish_calls|].
      intros x ?%list_elem_of_singleton. congruence.
  - exists []. rewrite app_nil_r. split; [|by intros x ?%elem_of_nil].
    destruct (to_string name); [|done]. by finish_calls.
Qed.

(** And it is called first when the merged name is the supported one. *)
Lemma create_calls_supported options merged st :
  merge_listing options = Ok merged ->
  path merged ["nftfi"; "contract"; "name"] = Ok (VStr "v2-1.loan.fixed") ->
  exists rest,
    calls (create this options st).2 = calls st ++ ConstructV2Offer merged :: rest.
Proof.
  intros Hm Hn. unfold create. step_M. rewrite Hm, Hn. simpl.
  destruct (constructV2Offer (helper this) merged) as [payload|e]; [|by exists []].
  destruct (strict_eq_false _).
  - exists [ApiPost (post_request payload)]. by finish_calls.
  - exists []. by finish_calls.
Qed.

End OffersCreate.

Section OffersCreateClaims.

Import Offers.

(** C2.  Whenever [create] reaches its switch (the options could be merged
    and [options.nftfi.contract.name] read) in an environment that declares
    no [response], the call throws: on each branch the error is the
    ReferenceError of the assignment to [response], unless the helper, the
    API or the conversion of the name to a string threw before it. *)
Theorem create_never_returns
    (this : Offers.t) (options merged name : value) (st : state) :
  globals st !! "response" = None ->
  merge_listing options = Ok merged ->
  path merged ["nftfi"; "contract"; "name"] = Ok name ->
  exists e,
    (create this options st).1 = Throw e
    /\ (e = ReferenceError "response"
        \/ to_string name = Throw e
        \/ constructV2Offer (helper this) merged = Throw e
        \/ exists payload,
             constructV2Offer (helper this) merged = Ok payload
             /\ api_post (api this) (post_request payload) = Throw e).
Proof.
  intros Hg Hm Hn. rewrite (create_from_switch this options merged name st Hm Hn Hg).
  destruct (strict_eq_str name "v2-1.loan.fixed").
  - destruct (constructV2Offer (helper this) merged) as [payload|e] eqn:Hh.
    + destruct (strict_eq_false _).
      * destruct (api_post (api this) (post_request payload)) as [r|e] eqn:Hp.
        -- exists (ReferenceError "response"). by split; [|left].
        -- exists e. split; [done|]. right; right; right. by exists payload.
      * exists (ReferenceError "response"). by split; [|left].
    + exists e. split; [done|]. by right; right; left.
  - destruct (to_string name) as [s|e] eqn:Hs.
    + exists (ReferenceError "response"). by split; [|left].
    + exists e. split; [done|]. by right; left.
Qed.

Lemma create_never_returns_witness :
  exists e,
    (create Fixtures.offers Fixtures.offer_v2_1 Fixtures.fresh).1 = Throw e
    /\ (e = ReferenceError "response"
        \/ to_string (VStr "v2-1.loan.fixed") = Throw e
        \/ constructV2Offer (helper Fixtures.offers) Fixtures.offer_v2_1 = Throw e
        \/ exists payload,
             constructV2Offer (helper Fixtures.offers) Fixtures.offer_v2_1 = Ok payload
             /\ api_post (api Fixtures.offers) (post_request payload) = Throw e).
Proof.
  exact (create_never_returns Fixtures.offers Fixtures.offer_v2_1
           Fixtures.offer_v2_1 (VStr "v2-1.loan.fixed") Fixtures.fresh
           ltac:(computed) ltac:(computed) ltac:(computed)).
Defined.

(** C1, on the code.  With the unsupported name ["v1.loan.fixed"] and no
    binding for [response], [create] calls no collaborator, whichever are
    injected, and throws the ReferenceError of line 131 where the claim has
    it return the [errors] object. *)
Theorem create_unsupported_name_throws (this : Offers.t) :
  create this Fixtures.offer_v1 Fixtures.fresh
  = (Throw (ReferenceError "response"), Fixtures.fresh).
Proof.
  by rewrite (create_from_switch this Fixtures.offer_v1 Fixtures.offer_v1
                (VStr "v1.loan.fixed") Fixtures.fresh
                ltac:(computed) ltac:(computed) ltac:(computed)).
Qed.

(** C3, on the code.  With the supported name and no dry run, the helper
    is called on the merged options and its payload is posted to [offers];
    the assignment of line 120 then throws and the API response is lost. *)
Theorem create_posts_then_throws :
  create Fixtures.offers Fixtures.offer_v2_1 Fixtures.fresh
  = (Throw (ReferenceError "response"),
     State ∅ [ConstructV2Offer Fixtures.offer_v2_1;
              ApiPost (post_request (Fixtures.payload_of Fixtures.offer_v2_1))]).
Proof.
  by rewrite (create_from_switch Fixtures.offers Fixtures.offer_v2_1
                Fixtures.offer_v2_1 (VStr "v2-1.loan.fixed") Fixtures.fresh
                ltac:(computed) ltac:(computed) ltac:(computed)).
Qed.

(** C4, on the code.  With the supported name and [simulation.dryRun] true,
    the helper is called and nothing is posted; the assignment of line 125
    throws where the claim has the payload returned. *)
Theorem create_dry_run_throws :
  create Fixtures.offers Fixtures.offer_v2_1_dry_run Fixtures.fresh
  = (Throw (ReferenceError "response"),
     State ∅ [ConstructV2Offer Fixtures.offer_v2_1_dry_run]).
Proof.
  by rewrite (create_from_switch Fixtures.offers Fixtures.offer_v2_1_dry_run
                Fixtures.offer_v2_1_dry_run (VStr "v2-1.loan.fixed") Fixtures.fresh
                ltac:(computed) ltac:(computed) ltac:(computed)).
Qed.

Example create_unsupported_name_with_binding (this : Offers.t) :
  (create this Fixtures.offer_v1 Fixtures.declared).1
  = Ok (VObj {[ "errors" :=
          VObj {[ "nftfi.contract.name" :=
                    VArr [VStr "v1.loan.fixed not supported"] ]} ]}).
Proof.
  by rewrite (create_from_switch_declared this Fixtures.offer_v1 Fixtures.offer_v1
                (VStr "v1.loan.fixed") VUndef Fixtures.declared
                ltac:(computed) ltac:(computed) ltac:(computed)).
Qed.

(** C7.  For options with a [listing], the merged options keep every root
    field (so a root field wins over the listing's field of that name) and
    gain the fields that only the listing has; and the merged options are
    what [create] hands to the helper's [constructV2Offer], which it does
    call when the merged contract name is the supported one. *)
Theorem create_merges_listing_under_root
    (this : Offers.t) (m : gmap string value) (listing : value) (st : state) :
  m !! "listing" = Some listing ->
  exists merged : gmap string value,
    merge_listing (VObj m) = Ok (VObj merged)
    /\ (forall k v, m !! k = Some v -> merged !! k = Some v)
    /\ (forall k v, m !! k = None -> own_props listing !! k = Some v ->
                    merged !! k = Some v)
    /\ (forall x, ConstructV2Offer x ∈ calls (create this (VObj m) st).2 ->
                  ConstructV2Offer x ∈ calls st \/ x = VObj merged)
    /\ (path (VObj merged) ["nftfi"; "contract"; "name"] = Ok (VStr "v2-1.loan.fixed") ->
        exists rest,
          calls (create this (VObj m) st).2
          = calls st ++ ConstructV2Offer (VObj merged) :: rest).
Proof.
  intros Hl. exists (m ∪ own_props listing).
  assert (merge_listing (VObj m) = Ok (VObj (m ∪ own_props listing))) as Hm.
  { unfold merge_listing, JS.get. simpl. by rewrite Hl. }
  split; [done|]. split; [|split; [|split]].
  - intros k v Hk. by apply lookup_union_Some_l.
  - intros k v Hk Hv. by rewrite lookup_union_r.
  - destruct (create_calls this (VObj m) _ st Hm) as (rest & Hcalls & Hrest).
    intros x Hx. rewrite Hcalls in Hx.
    apply elem_of_app in Hx as [Hx|Hx]; [by left|right; by apply Hrest].
  - intros Hn. destruct (create_calls_supported this (VObj m) _ st Hm Hn) as [rest ->].
    by exists rest.
Qed.

Lemma create_merges_listing_under_root_witness :
  exists merged : gmap string value,
    merge_listing (VObj Fixtures.offer_with_listing) = Ok (VObj merged)
    /\ merged !! "a" = Some (VNum "2")
    /\ merged !! "b" = Some (VNum "3")
    /\ exists rest,
         calls (create Fixtures.offers (VObj Fixtures.offer_with_listing)
                  Fixtures.fresh).2
         = ConstructV2Offer (VObj merged) :: rest.
Proof.
  destruct (create_merges_listing_under_root Fixtures.offers
              Fixtures.offer_with_listing
              Fixtures.listing_ab Fixtures.fresh
              ltac:(computed))
    as (merged & Hm & Hroot & Hlisting & _ & Hcall).
  exists merged. split; [exact Hm|]. split; [|split].
  - apply Hroot. computed.
  - apply (Hlisting "b" (VNum "3")); computed.
  - apply Hcall. unfold path, JS.get. simpl.
    by rewrite (Hroot "nftfi" (Fixtures.contract "v2-1.loan.fixed") ltac:(computed)).
Defined.

End OffersCreateClaims.

(** ** String.replace with an end-anchored pattern *)

Section ReplaceAtEnd.

Lemma app_cons (c : Ascii.ascii) (s t : string) :
  String c s +:+ t = String c (s +:+ t).
Proof. reflexivity. Qed.

Lemma app_empty (t : string) : "" +:+ t = t.
Proof. reflexivity. Qed.

Lemma app_length (s t : string) :
  String.length (s +:+ t) = String.length s + String.length t.
Proof.
  induction s as [|c s IH]; [done|]. rewrite app_cons. cbn. by rewrite IH.
Qed.

(** Two ways of cutting one string before a tail of the same length
    agree. *)
Lemma app_tail_inj (p q t u : string) :
  String.length t = String.length u -> p +:+ t = q +:+ u -> p = q /\ t = u.
Proof.
  revert q. induction p as [|c p IH]; intros [|d q] Hlen Heq;
    rewrite ?app_cons, ?app_empty in Heq.
  - done.
  - subst t. cbn in Hlen. rewrite app_length in Hlen. lia.
  - subst u. cbn in Hlen. rewrite app_length in Hlen. lia.
  - injection Heq as -> Heq.
    destruct (IH q Hlen Heq) as [-> ->]. done.
Qed.

(** A string that ends in the pattern has it replaced, and nothing else. *)
Lemma replace_at_end_app (pat rep p : string) :
  replace_at_end pat rep (p +:+ pat) = p +:+ rep.
Proof.
  induction p as [|c p IH].
  - rewrite app_empty. destruct pat; cbn; by rewrite ?Ascii.eqb_refl, ?String.eqb_refl.
  - rewrite !app_cons. cbn [replace_at_end].
    destruct (String.eqb_spec (String c (p +:+ pat)) pat) as [Heq|_].
    + apply (f_equal String.length) in Heq. cbn in Heq.
      rewrite app_length in Heq. lia.
    + by rewrite IH.
Qed.

(** A string that does not end in the pattern is returned as it is. *)
Lemma replace_at_end_id (pat rep s : string) :
  (forall p, s <> p +:+ pat) -> replace_at_end pat rep s = s.
Proof.
  induction s as [|c s IH]; intros Hno.
  - destruct pat as [|d pat]; [by destruct (Hno "")|done].
  - cbn [replace_at_end].
    destruct (String.eqb_spec (String c s) pat) as [<-|_].
    { by destruct (Hno ""). }
    rewrite IH; [done|]. intros p ->. by apply (Hno (String c p)).
Qed.

(** Either way of the two. *)
Lemma ends_in_dec (pat s : string) :
  (exists p, s = p +:+ pat) \/ (forall p, s <> p +:+ pat).
Proof.
  induction s as [|c s IH].
  - destruct pat as [|d pat]; [left; by exists ""|].
    right. intros [|??]; rewrite ?app_cons, ?app_empty; done.
  - destruct (decide (String c s = pat)) as [<-|Hne]; [left; by exists ""|].
    destruct IH as [[p ->]|Hno]; [left; by exists (String c p)|].
    right. intros [|d p]; rewrite ?app_cons, ?app_empty; [done|].
    intros [= -> ->]. by apply (Hno p).
Qed.

End ReplaceAtEnd.

(** ** MultisigGnosisOwner *)

Section MultisigGnosisOwnerClaims.

Import MultisigGnosisOwner.

(** [sign] is the wallet's signature with the two replacements applied in
    turn. *)
Lemma sign_of_wallet_signature (this : t) (msg : value) (s : string) :
  wallet_signature this msg = Ok (VStr s) ->
  sign this msg
  = Ok (VStr (replace_at_end "1c" "20" (replace_at_end "1b" "1f" s))).
Proof. unfold sign. by intros ->. Qed.

(** C6.  Whatever string the wallet signs with: a signature ending in
    ["1b"] comes back with that ending replaced by ["1f"], one ending in
    ["1c"] with ["20"] instead, any other comes back as it is; the result
    has the length of the wallet's signature and the same characters
    everywhere before the last two. *)
Theorem sign_rewrites_recovery_byte (this : t) (msg : value) (s : string) :
  wallet_signature this msg = Ok (VStr s) ->
  exists out,
    sign this msg = Ok (VStr out)
    /\ (forall p, s = p +:+ "1b" -> out = p +:+ "1f")
    /\ (forall p, s = p +:+ "1c" -> out = p +:+ "20")
    /\ ((forall p, s <> p +:+ "1b") -> (forall p, s <> p +:+ "1c") -> out = s)
    /\ String.length out = String.length s
    /\ (forall i, i + 2 < String.length s -> String.get i out = String.get i s).
Proof.
  intros Hw. eexists. split; [by apply sign_of_wallet_signature|].
  assert (forall p, replace_at_end "1c" "20" (replace_at_end "1b" "1f" (p +:+ "1b"))
                    = p +:+ "1f") as H1b.
  { intros p. rewrite replace_at_end_app. apply replace_at_end_id.
    intros q Heq. by apply app_tail_inj in Heq as [_ [=]]. }
  assert (forall p, replace_at_end "1c" "20" (replace_at_end "1b" "1f" (p +:+ "1c"))
                    = p +:+ "20") as H1c.
  { intros p. rewrite (replace_at_end_id "1b"); [apply replace_at_end_app|].
    intros q Heq. by apply app_tail_inj in Heq as [_ [=]]. }
  assert ((forall p, s <> p +:+ "1b") -> (forall p, s <> p +:+ "1c") ->
          replace_at_end "1c" "20" (replace_at_end "1b" "1f" s) = s) as Hid.
  { intros Hb Hc. by rewrite (replace_at_end_id "1b"), (replace_at_end_id "1c"). }
  split; [by intros p ->|]. split; [by intros p ->|]. split; [done|].
  destruct (ends_in_dec "1b" s) as [[p ->]|Hb].
  { rewrite H1b, !app_length. split; [done|].
    intros i Hi. cbn in Hi.
    rewrite <- !String.append_correct1 by lia. done. }
  destruct (ends_in_dec "1c" s) as [[p ->]|Hc].
  { rewrite H1c, !app_length. split; [done|].
    intros i Hi. cbn in Hi.
    rewrite <- !String.append_correct1 by lia. done. }
  by rewrite Hid.
Qed.

Lemma sign_rewrites_recovery_byte_witness :
  sign (Fixtures.owner (Some (Fixtures.signer_with Fixtures.derived (VStr "0x5e1b"))))
       (VArr [VNum "1"])
  = Ok (VStr "0x5e1f")
  /\ sign (Fixtures.owner None) (VArr [VNum "1"]) = Ok (VStr "0x5e20").
Proof.
  split.
  - destruct (sign_rewrites_recovery_byte
                (Fixtures.owner (Some (Fixtures.signer_with Fixtures.derived (VStr "0x5e1b"))))
                (VArr [VNum "1"]) "0x5e1b" ltac:(computed))
      as (out & -> & H1b & _).
    by rewrite (H1b "0x5e" eq_refl).
  - destruct (sign_rewrites_recovery_byte (Fixtures.owner None)
                (VArr [VNum "1"]) "0x5e1c" ltac:(computed))
      as (out & -> & _ & H1c & _).
    by rewrite (H1c "0x5e" eq_refl).
Defined.

(** C8, as the code has it.  When the signer's address is truthy,
    [getAddress] returns it, whatever the private key; without a signer it
    returns what [computeAddress] gives for the stored private key. *)
Theorem getAddress_signer_then_private_key (this : t) :
  (forall s a, signer this = Some s -> signer_getAddress s = Ok a ->
               truthy a = true -> getAddress this = Ok a)
  /\ (signer this = None ->
      getAddress this = computeAddress (ethers this) (privateKey this)).
Proof.
  split.
  - intros s a Hs Ha Ht. unfold getAddress. rewrite Hs, Ha. simpl. by rewrite Ht.
  - intros Hs. unfold getAddress. by rewrite Hs.
Qed.

Lemma getAddress_signer_then_private_key_witness :
  getAddress (Fixtures.owner (Some (Fixtures.signer_with (VStr "0x519e") (VStr "0x5e1b"))))
  = Ok (VStr "0x519e")
  /\ getAddress (Fixtures.owner None) = Ok Fixtures.derived.
Proof.
  split.
  - exact (proj1 (getAddress_signer_then_private_key
                    (Fixtures.owner (Some (Fixtures.signer_with (VStr "0x519e") (VStr "0x5e1b")))))
             _ (VStr "0x519e") eq_refl eq_refl eq_refl).
  - exact (proj2 (getAddress_signer_then_private_key (Fixtures.owner None)) eq_refl).
Defined.

(** C8 as stated fails where the signer resolves to the empty string: the
    owner has a signer, and [getAddress] returns the address computed from
    the private key, not the signer's. *)
Lemma getAddress_signer_address_not_returned :
  signer (Fixtures.owner (Some Fixtures.addressless_signer))
  = Some Fixtures.addressless_signer
  /\ signer_getAddress Fixtures.addressless_signer = Ok (VStr "")
  /\ getAddress (Fixtures.owner (Some Fixtures.addressless_signer))
     = Ok Fixtures.derived
  /\ getAddress (Fixtures.owner (Some Fixtures.addressless_signer))
     <> signer_getAddress Fixtures.addressless_signer.
Proof. repeat split. discriminate. Qed.

(** C10.  With a signer whose [getAddress] resolves to a falsy value,
    [getAddress] returns what [computeAddress] gives for the stored
    private key. *)
Theorem getAddress_falls_back_on_falsy_signer_address
    (this : t) (s : Signer) (a : value) :
  signer this = Some s ->
  signer_getAddress s = Ok a ->
  truthy a = false ->
  getAddress this = computeAddress (ethers this) (privateKey this).
Proof.
  intros Hs Ha Ht. unfold getAddress. rewrite Hs, Ha. simpl. by rewrite Ht.
Qed.

Lemma getAddress_falls_back_on_falsy_signer_address_witness :
  getAddress (Fixtures.owner (Some Fixtures.addressless_signer))
  = Ok Fixtures.derived.
Proof.
  exact (getAddress_falls_back_on_falsy_signer_address
           (Fixtures.owner (Some Fixtures.addressless_signer))
           Fixtures.addressless_signer (VStr "") eq_refl eq_refl eq_refl).
Defined.

End MultisigGnosisOwnerClaims.

(** * Further properties *)

(** ** Offers.get: its result, its failures, its queries *)

Section OffersGetMore.

Import Offers.

Variable this : Offers.t.

#[local] Arguments path : simpl never.
#[local] Arguments path_opt : simpl never.

(** [get] after [params]: one query, and the [results] of its answer. *)
Lemma get_after_params options st params st' :
  get_params this (match options with VUndef => VObj ∅ | _ => options end) st
  = (Ok params, st') ->
  Offers.get this options st
  = (match api_get (api this) (get_request params) with
     | Ok r => JS.get r "results"
     | Throw e => Throw e
     end,
     State (globals st') (calls st' ++ [ApiGet (get_request params)])).
Proof.
  intros Hp. unfold Offers.get, mbind, M_bind, bind, lift, call. rewrite Hp.
  by destruct (api_get (api this) (get_request params)).
Qed.

Lemma get_params_fails options st e st' :
  get_params this (match options with VUndef => VObj ∅ | _ => options end) st
  = (Throw e, st') ->
  Offers.get this options st = (Throw e, st').
Proof.
  intros Hp. unfold Offers.get, mbind, M_bind, bind. by rewrite Hp.
Qed.

(** With an [nft] filter, [params] is built without any call and has one
    of three shapes. *)
Lemma get_params_with_nft options st :
  truthy (path_opt options ["filters"; "nft"]) = true ->
  exists p : gmap string value,
    get_params this options st = (Ok (VObj p), st)
    /\ (p = ∅
        \/ (exists a, truthy a = true /\ p = {[ "nftAddress" := a ]})
        \/ (exists a i, truthy a = true /\ truthy i = true
                        /\ p = {[ "nftAddress" := a; "nftId" := i ]})).
Proof.
  intros Hnft.
  destruct (truthy (path_opt options ["filters"; "nft"; "address"])) eqn:Ha.
  - destruct (truthy (path_opt options ["filters"; "nft"; "id"])) eqn:Hi.
    + eexists. split; [by apply get_params_nft_and_id|].
      right; right. eauto.
    + eexists. split; [by apply get_params_nft_only|].
      right; left. eauto.
  - exists ∅. split; [by apply get_params_nft_without_address|by left].
Qed.

End OffersGetMore.

Section OffersGetMoreClaims.

Import Offers.

(** X1.  Whenever the last call of [get] is the query [req], what [get]
    returns is read off the API's answer to it: the [results] property of
    an answer other than [undefined] and [null] ([undefined] when the
    answer has none), a TypeError for such an answer, and the API's own
    error when the query is rejected. *)
Theorem get_returns_results_of_answer
    (this : Offers.t) (options : value) (st : state)
    (pre : list event) (req : value) :
  calls (Offers.get this options st).2 = pre ++ [ApiGet req] ->
  (forall r, api_get (api this) req = Ok r -> nullish r = false ->
             (Offers.get this options st).1 = Ok (prop r "results"))
  /\ (forall r, api_get (api this) req = Ok r -> nullish r = true ->
                (Offers.get this options st).1 = Throw TypeError)
  /\ (forall e, api_get (api this) req = Throw e ->
                (Offers.get this options st).1 = Throw e).
Proof.
  intros Hcalls.
  assert ((Offers.get this options st).1
          = match api_get (api this) req with
            | Ok r => JS.get r "results"
            | Throw e => Throw e
            end) as ->.
  { set (o := match options with VUndef => VObj ∅ | _ => options end).
    destruct (truthy (path_opt o ["filters"; "nft"])) eqn:Hnft.
    - destruct (get_params_with_nft this o st Hnft) as (p & Hp & _).
      rewrite (get_after_params this options st _ _ Hp) in Hcalls |- *.
      simpl in *. by apply app_inj_tail in Hcalls as [_ [= <-]].
    - pose proof (get_params_no_nft this o st Hnft) as Hp.
      destruct (account_getAddress (account this)) as [a|e].
      + rewrite (get_after_params this options st _ _ Hp) in Hcalls |- *.
        simpl in *. by apply app_inj_tail in Hcalls as [_ [= <-]].
      + rewrite (get_params_fails this options st _ _ Hp) in Hcalls.
        simpl in Hcalls. by apply app_inj_tail in Hcalls as [_ ?]. }
  repeat split.
  - intros r -> Hr. unfold JS.get. by rewrite Hr.
  - intros r -> Hr. unfold JS.get. by rewrite Hr.
  - by intros e ->.
Qed.

Lemma get_returns_results_of_answer_witness :
  (Offers.get Fixtures.offers (Fixtures.filter_nft Fixtures.nft_42) Fixtures.fresh).1
  = Ok (VArr []).
Proof.
  instance_of
    (proj1 (get_returns_results_of_answer Fixtures.offers
              (Fixtures.filter_nft Fixtures.nft_42) Fixtures.fresh []
              (get_request Cases.nft_query) ltac:(computed))
       Cases.no_results ltac:(computed) ltac:(computed)).
Defined.

(** X2.  Without an [nft] filter, an account whose [getAddress] throws
    makes [get] throw the same error: the account was the only
    collaborator called and the API is never queried. *)
Theorem get_account_failure
    (this : Offers.t) (options : value) (st : state) (e : error) :
  truthy (path_opt options ["filters"; "nft"]) = false ->
  account_getAddress (account this) = Throw e ->
  Offers.get this options st
  = (Throw e, State (globals st) (calls st ++ [AccountGetAddress])).
Proof.
  intros Hnft He. apply get_params_fails.
  rewrite get_params_no_nft by (by rewrite path_opt_default_param).
  by rewrite He.
Qed.

Lemma get_account_failure_witness :
  Offers.get Cases.offers_failing_account VUndef Fixtures.fresh
  = (Throw Cases.rejection, State ∅ [AccountGetAddress]).
Proof.
  exact (get_account_failure Cases.offers_failing_account VUndef Fixtures.fresh
           Cases.rejection ltac:(computed) ltac:(computed)).
Defined.

(** X3.  Every run of [get] makes at most one query, and its [params] has
    one of four shapes: [{lenderAddress}] with what the account returned
    (the only case in which the account is called), the empty object,
    [{nftAddress}] or [{nftAddress, nftId}], the last two never with a
    falsy value; when no query is made the account threw. *)
Theorem get_query_shapes (this : Offers.t) (options : value) (st : state) :
  exists rest,
    calls (Offers.get this options st).2 = calls st ++ rest
    /\ ((exists e, account_getAddress (account this) = Throw e
                   /\ rest = [AccountGetAddress])
        \/ (exists a, account_getAddress (account this) = Ok a
                      /\ rest = [AccountGetAddress;
                                 ApiGet (get_request (VObj {[ "lenderAddress" := a ]}))])
        \/ rest = [ApiGet (get_request (VObj ∅))]
        \/ (exists a, truthy a = true
                      /\ rest = [ApiGet (get_request (VObj {[ "nftAddress" := a ]}))])
        \/ (exists a i, truthy a = true /\ truthy i = true
                        /\ rest = [ApiGet (get_request
                                     (VObj {[ "nftAddress" := a; "nftId" := i ]}))])).
Proof.
  set (o := match options with VUndef => VObj ∅ | _ => options end).
  destruct (truthy (path_opt o ["filters"; "nft"])) eqn:Hnft.
  - destruct (get_params_with_nft this o st Hnft) as (p & Hp & Hshape).
    rewrite (get_after_params this options st _ _ Hp). simpl.
    eexists. split; [done|].
    destruct Hshape as [->|[(a & Ha & ->)|(a & i & Ha & Hi & ->)]].
    + by right; right; left.
    + right; right; right; left. eauto.
    + right; right; right; right. eauto.
  - pose proof (get_params_no_nft this o st Hnft) as Hp.
    destruct (account_getAddress (account this)) as [a|e] eqn:Hacc.
    + rewrite (get_after_params this options st _ _ Hp). simpl.
      rewrite <- app_assoc. eexists. split; [done|]. right; left. eauto.
    + rewrite (get_params_fails this options st _ _ Hp). simpl.
      eexists. split; [done|]. left. eauto.
Qed.

End OffersGetMoreClaims.

(** ** Offers.create: malformed options, failing collaborators, dry runs *)

Section OffersCreateMore.

Import Offers.

(** A chain of property reads throws nothing but a TypeError. *)
Lemma path_throws_type_error v ks e : path v ks = Throw e -> e = TypeError.
Proof.
  revert v. induction ks as [|k ks IH]; intros v; simpl; [done|].
  unfold JS.get. destruct (nullish v); simpl; [congruence|apply IH].
Qed.

Lemma merge_listing_throws options e :
  merge_listing options = Throw e -> e = TypeError.
Proof.
  unfold merge_listing, JS.get. destruct (nullish options); simpl; congruence.
Qed.

(** [simulationDryRun === false] holds exactly for a falsy [dryRun]. *)
Lemma dry_run_test v :
  strict_eq_false (or_else v (VBool false)) = negb (truthy v).
Proof.
  unfold or_else. destruct (truthy v) eqn:Hv; [|done].
  by destruct v as [| |[]| | | |].
Qed.

(** The state [create] leaves when it returns. *)
Lemma create_returns_inv (this : Offers.t) options st v :
  (create this options st).1 = Ok v ->
  is_Some (globals st !! "response")
  /\ globals (create this options st).2 = <["response" := v]> (globals st).
Proof.
  unfold create, mbind, M_bind, bind, lift, call, assign, read.
  destruct (merge_listing options) as [merged|]; [|done].
  destruct (path merged ["nftfi"; "contract"; "name"]) as [name|]; [|done].
  destruct (strict_eq_str name "v2-1.loan.fixed").
  - destruct (constructV2Offer (helper this) merged) as [payload|]; [|done].
    destruct (strict_eq_false _).
    + destruct (api_post (api this) (post_request payload)) as [r|]; [|done].
      simpl. destruct (globals st !! "response") eqn:Hg; [|done].
      simpl. rewrite lookup_insert_eq. simpl. intros [= <-]. eauto.
    + simpl. destruct (globals st !! "response") eqn:Hg; [|done].
      simpl. rewrite lookup_insert_eq. simpl. intros [= <-]. eauto.
  - destruct (to_string name) as [s|]; [|done].
    destruct (globals st !! "response") eqn:Hg; [|done].
    simpl. rewrite lookup_insert_eq. simpl. intros [= <-]. eauto.
Qed.

End OffersCreateMore.

Section OffersCreateMoreClaims.

Import Offers.

#[local] Arguments path : simpl never.
#[local] Arguments path_opt : simpl never.
#[local] Arguments to_string : simpl never.

(** X4.  Options from which the contract name cannot be read ([undefined]
    or [null] options, or no [nftfi] or no [nftfi.contract] once the
    listing is merged in) make [create] throw a TypeError before anything
    else happens: no collaborator is called and no binding is touched,
    whatever the environment. *)
Theorem create_malformed_options
    (this : Offers.t) (options : value) (st : state) :
  is_throw (merged ← merge_listing options;
            path merged ["nftfi"; "contract"; "name"]) = true ->
  create this options st = (Throw TypeError, st).
Proof.
  intros Hthrow.
  destruct (create_before_switch this options st) as [e He].
  { intros merged name Hm Hn. rewrite Hm in Hthrow. simpl in Hthrow.
    by rewrite Hn in Hthrow. }
  rewrite He. f_equal. f_equal.
  revert He. unfold create, mbind, M_bind, bind, lift.
  destruct (merge_listing options) as [merged|e0] eqn:Hm.
  - destruct (path merged ["nftfi"; "contract"; "name"]) as [name|e1] eqn:Hn.
    + simpl in Hthrow. by rewrite Hn in Hthrow.
    + intros [= <-]. by apply path_throws_type_error in Hn.
  - intros [= <-]. by apply merge_listing_throws in Hm.
Qed.

Lemma create_malformed_options_witness :
  create Fixtures.offers VUndef Fixtures.declared
  = (Throw TypeError, Fixtures.declared)
  /\ create Fixtures.offers (Fixtures.filter_nft Fixtures.nft_42) Fixtures.fresh
     = (Throw TypeError, Fixtures.fresh).
Proof.
  split.
  - exact (create_malformed_options Fixtures.offers VUndef Fixtures.declared
             ltac:(computed)).
  - exact (create_malformed_options Fixtures.offers
             (Fixtures.filter_nft Fixtures.nft_42) Fixtures.fresh ltac:(computed)).
Defined.

(** X5.  With the supported contract name, an error of the helper or of
    the API post is what [create] throws, whatever the environment: after
    a failed [constructV2Offer] nothing is posted, and a failed post comes
    after exactly the helper call and the post. *)
Theorem create_collaborator_errors_propagate
    (this : Offers.t) (options merged : value) (st : state) (e : error) :
  merge_listing options = Ok merged ->
  path merged ["nftfi"; "contract"; "name"] = Ok (VStr "v2-1.loan.fixed") ->
  (constructV2Offer (helper this) merged = Throw e ->
   create this options st
   = (Throw e, State (globals st) (calls st ++ [ConstructV2Offer merged])))
  /\ (forall payload,
        constructV2Offer (helper this) merged = Ok payload ->
        truthy (path_opt merged ["simulation"; "dryRun"]) = false ->
        api_post (api this) (post_request payload) = Throw e ->
        create this options st
        = (Throw e,
           State (globals st)
             (calls st ++ [ConstructV2Offer merged; ApiPost (post_request payload)]))).
Proof.
  intros Hm Hn. split.
  - intros Hh. unfold create, mbind, M_bind, bind, lift, call.
    rewrite Hm, Hn. simpl. by rewrite Hh.
  - intros payload Hh Hdry Hp. unfold create, mbind, M_bind, bind, lift, call.
    rewrite Hm, Hn. simpl. rewrite Hh, dry_run_test, Hdry. simpl.
    by rewrite Hp, <- app_assoc.
Qed.

Lemma create_collaborator_errors_propagate_witness :
  create Cases.offers_failing_helper Fixtures.offer_v2_1 Fixtures.fresh
  = (Throw Cases.rejection, State ∅ [ConstructV2Offer Fixtures.offer_v2_1])
  /\ create Cases.offers_failing_post Fixtures.offer_v2_1 Fixtures.declared
     = (Throw Cases.rejection,
        State (globals Fixtures.declared)
          [ConstructV2Offer Fixtures.offer_v2_1;
           ApiPost (post_request (Fixtures.payload_of Fixtures.offer_v2_1))]).
Proof.
  split.
  - instance_of
      (proj1 (create_collaborator_errors_propagate Cases.offers_failing_helper
                Fixtures.offer_v2_1 Fixtures.offer_v2_1 Fixtures.fresh Cases.rejection
                ltac:(computed) ltac:(computed))
         ltac:(computed)).
  - instance_of
      (proj2 (create_collaborator_errors_propagate Cases.offers_failing_post
                Fixtures.offer_v2_1 Fixtures.offer_v2_1 Fixtures.declared Cases.rejection
                ltac:(computed) ltac:(computed))
         (Fixtures.payload_of Fixtures.offer_v2_1)
         ltac:(computed) ltac:(computed) ltac:(computed)).
Defined.

(** X6.  With the supported contract name and a helper that returns a
    payload, [create] posts exactly when [simulation.dryRun] is falsy,
    whatever the environment: any truthy value, the string ["false"]
    included, makes it a dry run, and an absent, [false], [0], empty or
    [null] one lets the offer be posted. *)
Theorem create_posts_unless_dry_run
    (this : Offers.t) (options merged payload : value) (st : state) :
  merge_listing options = Ok merged ->
  path merged ["nftfi"; "contract"; "name"] = Ok (VStr "v2-1.loan.fixed") ->
  constructV2Offer (helper this) merged = Ok payload ->
  calls (create this options st).2
  = calls st ++
    ConstructV2Offer merged ::
    (if truthy (path_opt merged ["simulation"; "dryRun"]) then []
     else [ApiPost (post_request payload)]).
Proof.
  intros Hm Hn Hh.
  destruct (globals st !! "response") as [old|] eqn:Hg.
  - rewrite (create_from_switch_declared this options merged _ old st Hm Hn Hg).
    simpl. rewrite Hh, dry_run_test.
    destruct (truthy (path_opt merged ["simulation"; "dryRun"])); simpl; [done|].
    destruct (api_post (api this) (post_request payload)); simpl;
      by rewrite <- app_assoc.
  - rewrite (create_from_switch this options merged _ st Hm Hn Hg).
    simpl. rewrite Hh, dry_run_test.
    destruct (truthy (path_opt merged ["simulation"; "dryRun"])); simpl; [done|].
    destruct (api_post (api this) (post_request payload)); simpl;
      by rewrite <- app_assoc.
Qed.

Lemma create_posts_unless_dry_run_witness :
  calls (create Fixtures.offers Cases.offer_v2_1_dry_run_text Fixtures.fresh).2
  = [ConstructV2Offer Cases.offer_v2_1_dry_run_text]
  /\ calls (create Fixtures.offers Fixtures.offer_v2_1 Fixtures.declared).2
     = [ConstructV2Offer Fixtures.offer_v2_1;
        ApiPost (post_request (Fixtures.payload_of Fixtures.offer_v2_1))].
Proof.
  split.
  - instance_of
      (create_posts_unless_dry_run Fixtures.offers Cases.offer_v2_1_dry_run_text
         Cases.offer_v2_1_dry_run_text
         (Fixtures.payload_of Cases.offer_v2_1_dry_run_text) Fixtures.fresh
         ltac:(computed) ltac:(computed) ltac:(computed)).
  - instance_of
      (create_posts_unless_dry_run Fixtures.offers Fixtures.offer_v2_1
         Fixtures.offer_v2_1 (Fixtures.payload_of Fixtures.offer_v2_1)
         Fixtures.declared
         ltac:(computed) ltac:(computed) ltac:(computed)).
Defined.

End OffersCreateMoreClaims.

(** ** Offers.create where a global [response] exists, and the merge *)

Section OffersCreateDeclared.

Import Offers.

#[local] Arguments path : simpl never.
#[local] Arguments path_opt : simpl never.
#[local] Arguments to_string : simpl never.

(** X7.  In an environment that has a global binding for [response], an
    unsupported contract name makes [create] return the [errors] object,
    with the name printed as a template literal prints it, and call no
    collaborator. *)
Theorem create_unsupported_name_returns_errors
    (this : Offers.t) (options merged name old : value) (s : string) (st : state) :
  globals st !! "response" = Some old ->
  merge_listing options = Ok merged ->
  path merged ["nftfi"; "contract"; "name"] = Ok name ->
  strict_eq_str name "v2-1.loan.fixed" = false ->
  to_string name = Ok s ->
  (create this options st).1
  = Ok (VObj {[ "errors" :=
          VObj {[ "nftfi.contract.name" := VArr [VStr (s +:+ " not supported")] ]} ]})
  /\ calls (create this options st).2 = calls st.
Proof.
  intros Hg Hm Hn Hne Hs.
  rewrite (create_from_switch_declared this options merged name old st Hm Hn Hg).
  by rewrite Hne, Hs.
Qed.

Lemma create_unsupported_name_returns_errors_witness :
  (create Fixtures.offers Fixtures.offer_v1 Fixtures.declared).1
  = Ok Cases.v1_not_supported
  /\ calls (create Fixtures.offers Fixtures.offer_v1 Fixtures.declared).2 = [].
Proof.
  instance_of
    (create_unsupported_name_returns_errors Fixtures.offers Fixtures.offer_v1
       Fixtures.offer_v1 (VStr "v1.loan.fixed") VUndef "v1.loan.fixed"
       Fixtures.declared
       ltac:(computed) ltac:(computed) ltac:(computed) ltac:(computed)
       ltac:(computed)).
Defined.

(** X8.  In such an environment, with the supported contract name and a
    helper that returns a payload, [create] returns the payload itself on a
    dry run, and otherwise the API's answer to the post. *)
Theorem create_supported_name_returns
    (this : Offers.t) (options merged payload old : value) (st : state) :
  globals st !! "response" = Some old ->
  merge_listing options = Ok merged ->
  path merged ["nftfi"; "contract"; "name"] = Ok (VStr "v2-1.loan.fixed") ->
  constructV2Offer (helper this) merged = Ok payload ->
  (truthy (path_opt merged ["simulation"; "dryRun"]) = true ->
   (create this options st).1 = Ok payload)
  /\ (truthy (path_opt merged ["simulation"; "dryRun"]) = false ->
      forall r, api_post (api this) (post_request payload) = Ok r ->
                (create this options st).1 = Ok r).
Proof.
  intros Hg Hm Hn Hh.
  rewrite (create_from_switch_declared this options merged _ old st Hm Hn Hg).
  simpl. rewrite Hh, dry_run_test. split.
  - by intros ->.
  - intros -> r Hr. simpl. by rewrite Hr.
Qed.

Lemma create_supported_name_returns_witness :
  (create Fixtures.offers Fixtures.offer_v2_1_dry_run Fixtures.declared).1
  = Ok (Fixtures.payload_of Fixtures.offer_v2_1_dry_run)
  /\ (create Fixtures.offers Fixtures.offer_v2_1 Fixtures.declared).1
     = Ok Fixtures.posted.
Proof.
  split.
  - instance_of
      (proj1 (create_supported_name_returns Fixtures.offers
                Fixtures.offer_v2_1_dry_run Fixtures.offer_v2_1_dry_run
                (Fixtures.payload_of Fixtures.offer_v2_1_dry_run) VUndef
                Fixtures.declared
                ltac:(computed) ltac:(computed) ltac:(computed) ltac:(computed))
         ltac:(computed)).
  - instance_of
      (proj2 (create_supported_name_returns Fixtures.offers
                Fixtures.offer_v2_1 Fixtures.offer_v2_1
                (Fixtures.payload_of Fixtures.offer_v2_1) VUndef
                Fixtures.declared
                ltac:(computed) ltac:(computed) ltac:(computed) ltac:(computed))
         ltac:(computed) Fixtures.posted ltac:(computed)).
Defined.

(** X9.  [create] returns normally only where a global binding for
    [response] exists, and it then leaves its return value in that
    binding: the result of one call stays readable, and is overwritten by
    the next. *)
Theorem create_returns_through_global
    (this : Offers.t) (options v : value) (st : state) :
  (create this options st).1 = Ok v ->
  is_Some (globals st !! "response")
  /\ globals (create this options st).2 !! "response" = Some v.
Proof.
  intros Hv. destruct (create_returns_inv this options st v Hv) as [Hsome ->].
  split; [done|]. apply lookup_insert_eq.
Qed.

Lemma create_returns_through_global_witness :
  is_Some (globals Fixtures.declared !! "response")
  /\ globals (create Fixtures.offers Fixtures.offer_v2_1 Fixtures.declared).2
       !! "response"
     = Some Fixtures.posted.
Proof.
  exact (create_returns_through_global Fixtures.offers Fixtures.offer_v2_1
           Fixtures.posted Fixtures.declared ltac:(computed)).
Defined.

(** X10.  Options without a [listing], or whose [listing] is [undefined],
    [null], a boolean or a number, are merged into themselves. *)
Theorem merge_listing_without_listing (m : gmap string value) :
  match m !! "listing" with
  | None | Some VUndef | Some VNull | Some (VBool _) | Some (VNum _) => True
  | Some _ => False
  end ->
  merge_listing (VObj m) = Ok (VObj m).
Proof.
  intros Hl. unfold merge_listing, JS.get, spread2. simpl.
  destruct (m !! "listing") as [[| |b|t|s|l|l]|]; try done;
    simpl; by rewrite (right_id_L ∅ (∪)).
Qed.

Lemma merge_listing_without_listing_witness :
  merge_listing (VObj Cases.offer_v2_1_map) = Ok (VObj Cases.offer_v2_1_map).
Proof.
  exact (merge_listing_without_listing Cases.offer_v2_1_map
           ltac:(vm_compute; exact I)).
Defined.

(** X11.  Merging is idempotent on objects: options that went through the
    merge once are merged into themselves, so handing [create] options
    that an earlier call has merged changes nothing. *)
Theorem merge_listing_idempotent (m : gmap string value) (merged : value) :
  merge_listing (VObj m) = Ok merged ->
  merge_listing merged = Ok merged.
Proof.
  unfold merge_listing, JS.get, spread2. simpl. intros [= <-]. simpl.
  do 2 f_equal.
  assert ((m ∪ own_props (default VUndef (m !! "listing"))) !! "listing"
          = m !! "listing") as ->.
  { destruct (m !! "listing") as [l|] eqn:Hl.
    - by apply lookup_union_Some_l.
    - simpl. by rewrite (right_id_L ∅ (∪)). }
  by rewrite <- (assoc_L (∪)), (idemp_L (∪)).
Qed.

Lemma merge_listing_idempotent_witness :
  merge_listing (VObj Fixtures.offer_with_listing)
  = Ok (spread2 Fixtures.listing_ab (VObj Fixtures.offer_with_listing))
  /\ merge_listing (spread2 Fixtures.listing_ab (VObj Fixtures.offer_with_listing))
     = Ok (spread2 Fixtures.listing_ab (VObj Fixtures.offer_with_listing)).
Proof.
  split; [computed|].
  exact (merge_listing_idempotent Fixtures.offer_with_listing
           (spread2 Fixtures.listing_ab (VObj Fixtures.offer_with_listing))
           ltac:(computed)).
Defined.

End OffersCreateDeclared.

(** ** Offers.delete *)

Section OffersDelete.

Import OffersRest.

#[local] Arguments to_string : simpl never.


(** X13.  [delete] does not check its argument: options that are
    [undefined] or [null], or have no [offer], throw a TypeError without a
    request, while an [offer] without an [id] sends the DELETE to
    ["offers/undefined"]. *)
Theorem delete_missing_offer_or_id (this : t) (options : value) :
  (nullish (path_opt options ["offer"]) = true ->
   delete this options = (Throw TypeError, []))
  /\ (nullish (path_opt options ["offer"]) = false ->
      path_opt options ["offer"; "id"] = VUndef ->
      delete this options
      = (api_delete (api this) (delete_request "offers/undefined"),
         [ApiDelete (delete_request "offers/undefined")])).
Proof.
  split.
  - intros Hn. unfold delete, delete_uri. simpl. unfold get.
    destruct (nullish options) eqn:Ho; [done|]. simpl.
    simpl in Hn. unfold get_opt in Hn. rewrite Ho in Hn. by rewrite Hn.
  - intros Hn Hid. unfold delete, delete_uri.
    pose proof (path_snoc ["offer"] options "id" Hn) as Hp. simpl app in Hp.
    rewrite Hp, Hid. reflexivity.
Qed.

Lemma delete_missing_offer_or_id_witness :
  delete (Cases.deleter (Ok VNull)) Cases.no_offer = (Throw TypeError, [])
  /\ delete (Cases.deleter (Ok VNull)) Cases.offer_without_id
     = (Ok VNull, [ApiDelete (delete_request "offers/undefined")]).
Proof.
  split.
  - exact (proj1 (delete_missing_offer_or_id (Cases.deleter (Ok VNull))
                    Cases.no_offer)
             ltac:(computed)).
  - exact (proj2 (delete_missing_offer_or_id (Cases.deleter (Ok VNull))
                    Cases.offer_without_id)
             ltac:(computed) ltac:(computed)).
Defined.

End OffersDelete.

(** ** MultisigGnosisOwner: signing and address resolution *)

Section MultisigGnosisOwnerMore.

Import MultisigGnosisOwner.

(** The two replacements in turn, by the ending of the string. *)
Lemma replace_both_1b p :
  replace_at_end "1c" "20" (replace_at_end "1b" "1f" (p +:+ "1b")) = p +:+ "1f".
Proof.
  rewrite replace_at_end_app. apply replace_at_end_id.
  intros q Heq. by apply app_tail_inj in Heq as [_ [=]].
Qed.

Lemma replace_both_1c p :
  replace_at_end "1c" "20" (replace_at_end "1b" "1f" (p +:+ "1c")) = p +:+ "20".
Proof.
  rewrite (replace_at_end_id "1b"); [apply replace_at_end_app|].
  intros q Heq. by apply app_tail_inj in Heq as [_ [=]].
Qed.

Lemma replace_both_other s :
  (forall p, s <> p +:+ "1b") -> (forall p, s <> p +:+ "1c") ->
  replace_at_end "1c" "20" (replace_at_end "1b" "1f" s) = s.
Proof.
  intros Hb Hc. by rewrite (replace_at_end_id "1b"), (replace_at_end_id "1c").
Qed.

(** What the two replacements return ends neither in ["1b"] nor in
    ["1c"]. *)
Lemma replace_both_ending s p :
  replace_at_end "1c" "20" (replace_at_end "1b" "1f" s) <> p +:+ "1b"
  /\ replace_at_end "1c" "20" (replace_at_end "1b" "1f" s) <> p +:+ "1c".
Proof.
  destruct (ends_in_dec "1b" s) as [[q ->]|Hb].
  { rewrite replace_both_1b.
    split; intros Heq; by apply app_tail_inj in Heq as [_ [=]]. }
  destruct (ends_in_dec "1c" s) as [[q ->]|Hc].
  { rewrite replace_both_1c.
    split; intros Heq; by apply app_tail_inj in Heq as [_ [=]]. }
  rewrite replace_both_other by done. split; [apply Hb|apply Hc].
Qed.

End MultisigGnosisOwnerMore.

Section MultisigGnosisOwnerMoreClaims.

Import MultisigGnosisOwner.

(** X14.  Whatever string the wallet signs with, the signature that [sign]
    returns ends neither in ["1b"] nor in ["1c"]. *)
Theorem sign_never_ends_in_1b_or_1c (this : t) (msg : value) (s : string) :
  wallet_signature this msg = Ok (VStr s) ->
  exists out,
    sign this msg = Ok (VStr out)
    /\ forall p, out <> p +:+ "1b" /\ out <> p +:+ "1c".
Proof.
  intros Hw. eexists. split; [by apply sign_of_wallet_signature|].
  intros p. apply replace_both_ending.
Qed.

Lemma sign_never_ends_in_1b_or_1c_witness :
  exists out,
    sign (Fixtures.owner (Some Cases.signer_1b)) (VArr [VNum "1"]) = Ok (VStr out)
    /\ forall p, out <> p +:+ "1b" /\ out <> p +:+ "1c".
Proof.
  exact (sign_never_ends_in_1b_or_1c (Fixtures.owner (Some Cases.signer_1b))
           (VArr [VNum "1"]) "0x5e1b" ltac:(computed)).
Defined.

(** X15.  The adjustment is idempotent: a wallet that hands back a
    signature [sign] has already returned gets it back unchanged. *)
Theorem sign_idempotent
    (this this' : t) (msg msg' : value) (s out : string) :
  wallet_signature this msg = Ok (VStr s) ->
  sign this msg = Ok (VStr out) ->
  wallet_signature this' msg' = Ok (VStr out) ->
  sign this' msg' = Ok (VStr out).
Proof.
  intros Hw Hs Hw'.
  rewrite (sign_of_wallet_signature this msg s Hw) in Hs. injection Hs as <-.
  rewrite (sign_of_wallet_signature this' msg' _ Hw').
  do 2 f_equal. apply replace_both_other; intros p; apply replace_both_ending.
Qed.

Lemma sign_idempotent_witness :
  sign (Fixtures.owner (Some (Fixtures.signer_with Fixtures.derived (VStr "0x5e1f"))))
       (VArr [VNum "2"])
  = Ok (VStr "0x5e1f").
Proof.
  exact (sign_idempotent (Fixtures.owner (Some Cases.signer_1b))
           (Fixtures.owner (Some (Fixtures.signer_with Fixtures.derived (VStr "0x5e1f"))))
           (VArr [VNum "1"]) (VArr [VNum "2"]) "0x5e1b" "0x5e1f"
           ltac:(computed) ltac:(computed) ltac:(computed)).
Defined.

(** X16.  [sign] needs a string from the wallet: if the wallet resolves to
    anything else, [undefined] included, [sign] throws a TypeError; and
    whatever is thrown on the way to the wallet's signature is thrown by
    [sign] unchanged. *)
Theorem sign_without_string_signature (this : t) (msg : value) :
  (forall v, wallet_signature this msg = Ok v -> (forall s, v <> VStr s) ->
             sign this msg = Throw TypeError)
  /\ (forall e, wallet_signature this msg = Throw e -> sign this msg = Throw e).
Proof.
  split.
  - intros v Hw Hv. unfold sign. rewrite Hw. simpl.
    destruct v; try done. by destruct (Hv s).
  - intros e Hw. unfold sign. by rewrite Hw.
Qed.

Lemma sign_without_string_signature_witness :
  sign (Fixtures.owner (Some Cases.rejecting_signer)) (VArr [VNum "1"])
  = Throw TypeError
  /\ sign Cases.owner_without_safe (VArr [VNum "1"]) = Throw TypeError.
Proof.
  split.
  - exact (proj1 (sign_without_string_signature
                    (Fixtures.owner (Some Cases.rejecting_signer)) (VArr [VNum "1"]))
             VUndef ltac:(computed) ltac:(intros s; discriminate)).
  - exact (proj2 (sign_without_string_signature Cases.owner_without_safe
                    (VArr [VNum "1"]))
             TypeError ltac:(computed)).
Defined.

(** X17.  With a signer, [sign] uses neither the private key nor the
    [Wallet] constructor (nor [computeAddress]): two owners with the same
    signer, Safe, chain and hashing functions sign alike, whatever their
    keys and constructors. *)
Theorem sign_with_signer_ignores_private_key
    (this this' : t) (s : Signer) (msg : value) :
  signer this = Some s ->
  signer this' = Some s ->
  multisig this' = multisig this ->
  config this' = config this ->
  hashMessage (ethers this') = hashMessage (ethers this) ->
  typedDataHash (ethers this') = typedDataHash (ethers this) ->
  arrayify (ethers this') = arrayify (ethers this) ->
  sign this' msg = sign this msg.
Proof.
  intros Hs Hs' Hm Hc Hh Ht Ha.
  unfold sign, wallet_signature, getSigner.
  by rewrite Hs, Hs', Hm, Hc, Hh, Ht, Ha.
Qed.

Lemma sign_with_signer_ignores_private_key_witness :
  sign (Cases.keyless_owner (Some Cases.signer_1b)) (VArr [VNum "1"])
  = sign (Fixtures.owner (Some Cases.signer_1b)) (VArr [VNum "1"]).
Proof.
  exact (sign_with_signer_ignores_private_key
           (Fixtures.owner (Some Cases.signer_1b))
           (Cases.keyless_owner (Some Cases.signer_1b))
           Cases.signer_1b (VArr [VNum "1"])
           eq_refl eq_refl eq_refl eq_refl eq_refl eq_refl eq_refl).
Defined.

(** X18.  [sign] reads the Safe address and the chain id before anything
    else: an owner without [multisig], without [multisig.safe] or without
    [config] cannot sign, signer or not (a TypeError, whatever the
    message and the libraries). *)
Theorem sign_needs_safe_and_config (this : t) (msg : value) :
  nullish (path_opt (multisig this) ["safe"]) = true
  \/ nullish (config this) = true ->
  sign this msg = Throw TypeError.
Proof.
  intros H. unfold sign, wallet_signature. simpl. unfold get.
  destruct (nullish (multisig this)) eqn:Hm; [done|]. simpl.
  simpl in H. unfold get_opt in H. rewrite Hm in H.
  destruct (nullish (prop (multisig this) "safe")) eqn:Hsafe; [done|].
  destruct H as [?|Hc]; [done|]. simpl. by rewrite Hc.
Qed.

Lemma sign_needs_safe_and_config_witness :
  sign Cases.owner_without_safe (VArr [VNum "1"]) = Throw TypeError.
Proof.
  exact (sign_needs_safe_and_config Cases.owner_without_safe (VArr [VNum "1"])
           ltac:(left; computed)).
Defined.

(** X19.  The fallback of [getAddress] is for falsy addresses only: when
    the signer's [getAddress] rejects, [getAddress] rejects with the same
    error, private key or not. *)
Theorem getAddress_signer_rejection (this : t) (s : Signer) (e : error) :
  signer this = Some s ->
  signer_getAddress s = Throw e ->
  getAddress this = Throw e.
Proof. intros Hs He. unfold getAddress. by rewrite Hs, He. Qed.

Lemma getAddress_signer_rejection_witness :
  getAddress (Fixtures.owner (Some Cases.rejecting_signer)) = Throw Cases.rejection.
Proof.
  exact (getAddress_signer_rejection (Fixtures.owner (Some Cases.rejecting_signer))
           Cases.rejecting_signer Cases.rejection eq_refl eq_refl).
Defined.

End MultisigGnosisOwnerMoreClaims.

(** ** MultisigGnosisOwner.getSafeSDK *)

Section GetSafeSDK.

Import MultisigGnosisOwner SafeSDK.

Context {Adapter : Type}.

(** X20.  With a signer, [getSafeSDK] wraps that signer in the adapter and
    returns the promise of [Safe.default.create] for the adapter and
    [multisig.safe.address] as it is: the call returns normally even when
    the session creation rejects, and the private key, the provider and
    the [Wallet] constructor play no part. *)
Theorem getSafeSDK_with_signer
    (libs : Libs Adapter) (this : t) (s : Signer) (a : value) (ad : Adapter) :
  signer this = Some s ->
  path (multisig this) ["safe"; "address"] = Ok a ->
  EthersAdapter libs (ethers this) s = Ok ad ->
  getSafeSDK libs this = Ok (Safe_create libs ad a).
Proof.
  intros Hs Ha Had. unfold getSafeSDK, getSigner. rewrite Ha, Hs. simpl.
  by rewrite Had.
Qed.

(** X21.  Without [multisig] or [multisig.safe], [getSafeSDK] throws a
    TypeError at the call, not through the promise, before any wallet or
    adapter is built, whatever the libraries. *)
Theorem getSafeSDK_needs_safe (libs : Libs Adapter) (this : t) :
  nullish (path_opt (multisig this) ["safe"]) = true ->
  getSafeSDK libs this = Throw TypeError.
Proof.
  intros H. unfold getSafeSDK. simpl. unfold get.
  destruct (nullish (multisig this)) eqn:Hm; [done|]. simpl.
  simpl in H. unfold get_opt in H. rewrite Hm in H. by rewrite H.
Qed.

End GetSafeSDK.

Section GetSafeSDKWitnesses.

Import MultisigGnosisOwner SafeSDK.

Lemma getSafeSDK_with_signer_witness :
  getSafeSDK (Cases.safe_libs_without_wallet (Throw Cases.rejection))
    (Cases.keyless_owner (Some Cases.signer_1b))
  = Ok (Throw Cases.rejection).
Proof.
  exact (getSafeSDK_with_signer
           (Cases.safe_libs_without_wallet (Throw Cases.rejection))
           (Cases.keyless_owner (Some Cases.signer_1b))
           Cases.signer_1b (VStr "0x5afe") Cases.signer_1b
           eq_refl ltac:(computed) eq_refl).
Defined.

Lemma getSafeSDK_needs_safe_witness :
  getSafeSDK (Cases.safe_libs (Ok VNull)) Cases.owner_without_safe
  = Throw TypeError.
Proof.
  exact (getSafeSDK_needs_safe (Cases.safe_libs (Ok VNull))
           Cases.owner_without_safe ltac:(computed)).
Defined.

End GetSafeSDKWitnesses.
